(** * dm-data-format-permutator: a shallow embedding of [main.py]

    The program reads a CSV file, classifies each value of one named column
    with four regular expressions ([detect_data_type]), replaces it with a
    fabricated value ([permute_data_format]) and writes the rows to an output
    file ([main]).

    Python text is a sequence of Unicode code points; the external libraries
    (Faker, dateutil, the file system) are an interface whose calls thread an
    opaque world and may raise.

    Scope.  [main] is modelled from the parsed arguments on: [parse_args]
    (line 96), which ends the process itself on a usage error or [-h], is
    not part of it.  A file is the list of rows [csv.reader] yields from it,
    named by the text of its path: errors raised by the reader while it
    decodes the input, errors deferred to the flush at the end of the [with]
    block, and two paths naming one file are outside the model. *)

From Stdlib Require Import NArith ZArith Lia DecimalString.
From stdpp Require Import base numbers list strings gmap.

Open Scope N_scope.

(** ** Text *)

(** A Python [str]: code points, in order. *)
Definition pystr : Type := list N.

(** A literal written in the source, as code points (ASCII literals only). *)
Fixpoint u (s : string) : pystr :=
  match s with
  | EmptyString => []
  | String a s' => Ascii.N_of_ascii a :: u s'
  end.

(** The part of the interpreter's Unicode database the program relies on and
    that is not ASCII: [Py_UNICODE_ISSPACE] and [Py_UNICODE_ISDECIMAL] on the
    code points from 128 on (the tables depend on the Unicode version the
    interpreter was built with). *)
Class UnicodeDB := {
  uni_isspace : N -> bool;
  uni_isdecimal : N -> bool
}.

Section Text.
Context {UCD : UnicodeDB}.

(** [Py_UNICODE_ISSPACE]: what [str.strip()] removes and [\s] matches.  The
    ASCII part is CPython's [_Py_ascii_whitespace]: TAB, LF, VT, FF, CR,
    FS, GS, RS, US and SPACE. *)
Definition isspace (c : N) : bool :=
  if c <? 128
  then ((9 <=? c) && (c <=? 13)) || ((28 <=? c) && (c <=? 32))
  else uni_isspace c.

(** [Py_UNICODE_ISDECIMAL]: what [\digit] matches in a [str] pattern. *)
Definition isdecimal (c : N) : bool :=
  if c <? 128
  then (48 <=? c) && (c <=? 57)
  else uni_isdecimal c.

(** [str.lstrip()], [str.rstrip()] and [str.strip()] without argument. *)
Fixpoint lstrip (s : pystr) : pystr :=
  match s with
  | [] => []
  | c :: s' => if isspace c then lstrip s' else s
  end.

Fixpoint rstrip (s : pystr) : pystr :=
  match s with
  | [] => []
  | c :: s' =>
      match rstrip s' with
      | [] => if isspace c then [] else [c]
      | t => c :: t
      end
  end.

Definition strip (s : pystr) : pystr := rstrip (lstrip s).

End Text.

(** [prefix_b p s]: [s.startswith(p)]. *)
Fixpoint prefix_b (p s : pystr) : bool :=
  match p, s with
  | [], _ => true
  | _ :: _, [] => false
  | a :: p', b :: s' => (a =? b) && prefix_b p' s'
  end.

(** [s.replace(old, new)]: the occurrences of [old] are found from left to
    right and do not overlap.  [skip] counts the characters of a replaced
    occurrence still to be passed over.  With an empty [old], Python puts
    [new] before every character and at the end. *)
Fixpoint replace_from (old new : pystr) (skip : nat) (s : pystr) : pystr :=
  match s with
  | [] => []
  | c :: s' =>
      match skip with
      | S k => replace_from old new k s'
      | O =>
          if prefix_b old s
          then new ++ replace_from old new (length old - 1) s'
          else c :: replace_from old new O s'
      end
  end.

Definition str_replace (s old new : pystr) : pystr :=
  match old with
  | [] => new ++ flat_map (fun c => c :: new) s
  | _ :: _ => replace_from old new O s
  end.

(** [occurs pat s]: [pat in s], the substring test. *)
Definition occurs (pat s : pystr) : Prop :=
  exists p q, s = p ++ pat ++ q.

(** ** Regular expressions, as [re.match] uses them *)

Inductive regex : Type :=
| Void
| Eps
| Sym (p : N -> bool)
| Cat (r1 r2 : regex)
| Alt (r1 r2 : regex)
| Star (r : regex).

(** [matches r w]: the whole of [w] is in the language of [r]. *)
Inductive matches : regex -> pystr -> Prop :=
| m_eps : matches Eps []
| m_sym p c : p c = true -> matches (Sym p) [c]
| m_cat r1 r2 w1 w2 : matches r1 w1 -> matches r2 w2 -> matches (Cat r1 r2) (w1 ++ w2)
| m_alt_l r1 r2 w : matches r1 w -> matches (Alt r1 r2) w
| m_alt_r r1 r2 w : matches r2 w -> matches (Alt r1 r2) w
| m_star_nil r : matches (Star r) []
| m_star_cons r w1 w2 : matches r w1 -> matches (Star r) w2 -> matches (Star r) (w1 ++ w2).

(** [re.match] anchors at the start only: it succeeds when some prefix of
    the subject is in the language. *)
Definition has_match (r : regex) (s : pystr) : Prop :=
  exists w rest, s = w ++ rest /\ matches r w.

Fixpoint nullable (r : regex) : bool :=
  match r with
  | Void => false
  | Eps => true
  | Sym _ => false
  | Cat r1 r2 => nullable r1 && nullable r2
  | Alt r1 r2 => nullable r1 || nullable r2
  | Star _ => true
  end.

Fixpoint deriv (c : N) (r : regex) : regex :=
  match r with
  | Void => Void
  | Eps => Void
  | Sym p => if p c then Eps else Void
  | Cat r1 r2 =>
      if nullable r1
      then Alt (Cat (deriv c r1) r2) (deriv c r2)
      else Cat (deriv c r1) r2
  | Alt r1 r2 => Alt (deriv c r1) (deriv c r2)
  | Star r1 => Cat (deriv c r1) (Star r1)
  end.

(** [re_match r s]: [re.match(r, s)] is not [None]. *)
Fixpoint re_match (r : regex) (s : pystr) : bool :=
  nullable r ||
  match s with
  | [] => false
  | c :: s' => re_match (deriv c r) s'
  end.

(** The pattern syntax the source uses. *)
Definition Lit (c : N) : regex := Sym (N.eqb c).
Definition Opt (r : regex) : regex := Alt r Eps.
Definition Plus (r : regex) : regex := Cat r (Star r).

(** [r{n}] *)
Fixpoint Rep (n : nat) (r : regex) : regex :=
  match n with
  | O => Eps
  | S k => Cat r (Rep k r)
  end.

(** [r{0,n}] *)
Fixpoint UpTo (n : nat) (r : regex) : regex :=
  match n with
  | O => Eps
  | S k => Opt (Cat r (UpTo k r))
  end.

(** [r{lo,hi}] *)
Definition Between (lo hi : nat) (r : regex) : regex :=
  Cat (Rep lo r) (UpTo (hi - lo) r).

(** A sequence of pieces, as a pattern is written. *)
Fixpoint Seq (rs : list regex) : regex :=
  match rs with
  | [] => Eps
  | [r] => r
  | r :: rs' => Cat r (Seq rs')
  end.

(** ** The type detector *)

(** The values [detect_data_type] may be handed. *)
Inductive pyval : Type :=
| PStr (s : pystr)
| PNone
| PInt (z : Z).

Definition tag_date : pystr := u "date".
Definition tag_currency : pystr := u "currency".
Definition tag_telephone : pystr := u "telephone".
Definition tag_unknown : pystr := u "unknown".

Definition ch (s : string) : N :=
  match s with
  | String a _ => Ascii.N_of_ascii a
  | EmptyString => 0
  end.

Section Detector.
Context {UCD : UnicodeDB}.

Definition digit : regex := Sym isdecimal.
Definition space : regex := Sym isspace.

(** [[-.\s]] *)
Definition sep : regex :=
  Sym (fun c => (c =? ch "-") || (c =? ch ".") || isspace c).

(** [\d{4}-\d{2}-\d{2}] *)
Definition re_ymd : regex :=
  Seq [Rep 4 digit; Lit (ch "-"); Rep 2 digit; Lit (ch "-"); Rep 2 digit].

(** [\d{2}/\d{2}/\d{4}] *)
Definition re_mdy : regex :=
  Seq [Rep 2 digit; Lit (ch "/"); Rep 2 digit; Lit (ch "/"); Rep 4 digit].

(** [\$\d+(\,\d{3})*(\.\d{2})?] *)
Definition re_currency : regex :=
  Seq [Lit (ch "$"); Plus digit;
       Star (Cat (Lit (ch ",")) (Rep 3 digit));
       Opt (Cat (Lit (ch ".")) (Rep 2 digit))].

(** [(\+\d{1,3})?\s?\(?\d{3}\)?[-.\s]?\d{3}[-.\s]?\d{4}] *)
Definition re_telephone : regex :=
  Seq [Opt (Cat (Lit (ch "+")) (Between 1 3 digit));
       Opt space; Opt (Lit (ch "("));
       Rep 3 digit; Opt (Lit (ch ")")); Opt sep;
       Rep 3 digit; Opt sep; Rep 4 digit].

Definition detect_data_type (data : pyval) : pystr :=
  match data with
  | PStr s =>
      let data := strip s in
      match data with
      | [] => tag_unknown
      | _ :: _ =>
          if re_match re_ymd data then tag_date
          else if re_match re_mdy data then tag_date
          else if re_match re_currency data then tag_currency
          else if re_match re_telephone data then tag_telephone
          else tag_unknown
      end
  | _ => tag_unknown
  end.

End Detector.


(** ** Exceptions and the outside of the program *)

(** The classes of [Exception] the program tells apart, and some it does
    not.  [SystemExit] is not one of them: it is not an [Exception], and is
    the [Exit] outcome below. *)
Inductive exn_class : Type :=
| ValueError
| ParserError          (* dateutil; a ValueError *)
| UnicodeError         (* a ValueError *)
| IndexError
| TypeError
| AttributeError
| OverflowError
| ImportError
| StopIteration
| OSError
| FileNotFoundError    (* an OSError *)
| OtherException.

Record exn : Type := mkExn { exn_cls : exn_class; exn_msg : pystr }.

(** [isinstance(e, c)], for the classes the [except] clauses name. *)
Definition isinstance (e : exn) (c : exn_class) : bool :=
  match c, exn_cls e with
  | ValueError, (ValueError | ParserError | UnicodeError) => true
  | IndexError, IndexError => true
  | FileNotFoundError, FileNotFoundError => true
  | OSError, (OSError | FileNotFoundError) => true
  | _, _ => false
  end.

(** What a call into a library gives back. *)
Inductive outcome (A : Type) : Type :=
| Ok (a : A)
| Err (e : exn).
Arguments Ok {A} a.
Arguments Err {A} e.

Definition row : Type := list pystr.

Inductive io_op : Type :=
| OpenRead (path : pystr)
| OpenWrite (path : pystr)
| WriteRow (r : row).

(** [str(n)] for an [int]. *)
Definition str_of_int (n : Z) : pystr :=
  u (DecimalString.NilZero.string_of_int (Z.to_int n)).

Definition ascii_digit (c : N) : bool := (48 <=? c) && (c <=? 57).
Definition ascii_letter (c : N) : bool :=
  ((65 <=? c) && (c <=? 90)) || ((97 <=? c) && (c <=? 122)).

(** The libraries and the operating system.  Every call threads the state
    of the outside world (Faker's random generator, the clock, the devices)
    and may raise.  [float] is the builtin, a function of its argument. *)
Class Library := {
  World : Type;
  FakerT : Type;
  PyFloat : Type;
  (** [Faker(locale)] *)
  Faker : pystr -> World -> outcome FakerT * World;
  (** [from dateutil import parser; parser.parse(data)], result unused *)
  dateutil_parse : pystr -> World -> outcome unit * World;
  (** [fake.date_time_this_decade().strftime('%Y-%m-%d')] *)
  date_time_this_decade_ymd : FakerT -> World -> outcome pystr * World;
  (** [fake.random_number(digits=n)] *)
  random_number : FakerT -> nat -> World -> outcome Z * World;
  (** [fake.phone_number()] *)
  phone_number : FakerT -> World -> outcome pystr * World;
  (** [fake.pystr(min_chars=a, max_chars=b)] *)
  fake_pystr : FakerT -> nat -> nat -> World -> outcome pystr * World;
  (** [float(s)] *)
  py_float : pystr -> outcome PyFloat;
  (** the error, if any, with which the operating system answers a file
      operation *)
  io_error : io_op -> World -> option exn * World
}.

(** What Faker documents for the two generators whose results the claims
    describe.  [random_number(digits=n)], with [fix_len] left at [False],
    draws from [0 .. 10^n - 1]; [pystr(min_chars=a, max_chars=b)] gives
    between [a] and [b] ASCII letters. *)
Definition random_number_contract {LIB : Library} : Prop :=
  forall (f : FakerT) (digits : nat) (w w' : World) (n : Z),
    random_number f digits w = (Ok n, w') -> (0 <= n < 10 ^ Z.of_nat digits)%Z.

Definition pystr_contract {LIB : Library} : Prop :=
  forall (f : FakerT) (lo hi : nat) (w w' : World) (s : pystr),
    fake_pystr f lo hi w = (Ok s, w') ->
    (lo <= length s <= hi)%nat /\ forallb ascii_letter s = true.

(** [n] is written with one to [maxlen] decimal digits and nothing else. *)
Definition decimal_ok (maxlen : nat) (n : Z) : bool :=
  let s := str_of_int n in
  (1 <=? length s)%nat && (length s <=? maxlen)%nat && forallb ascii_digit s.

(** The form the specification gives a fabricated amount: [$], three
    digits, [.], two digits. *)
Definition currency_shape_3_2 (s : pystr) : bool :=
  match s with
  | [c0; c1; c2; c3; c4; c5; c6] =>
      (c0 =? ch "$") && ascii_digit c1 && ascii_digit c2 && ascii_digit c3
      && (c4 =? ch ".") && ascii_digit c5 && ascii_digit c6
  | _ => false
  end.

Inductive level : Type := INFO | WARNING | ERROR.

(** [l.index(x)] *)
Fixpoint list_index (x : pystr) (l : list pystr) : option nat :=
  match l with
  | [] => None
  | y :: l' => if decide (y = x) then Some O else S <$> list_index x l'
  end.

(** How a piece of the program ends: with a value, with an exception
    raised, or with [sys.exit(code)]. *)
Inductive result (A : Type) : Type :=
| Return (a : A)
| Raise (e : exn)
| Exit (code : Z).
Arguments Return {A} a.
Arguments Raise {A} e.
Arguments Exit {A} code.

Section Program.
Context {UCD : UnicodeDB} {LIB : Library}.

(** What the program acts on: the outside world, the files (a CSV file is
    the rows [csv.reader] yields from it and [csv.writer] appends to it),
    the log lines emitted, and the list object the loop variable [row] is
    bound to, which line 124 updates in place and both handlers read. *)
Record state : Type := mkState {
  world : World;
  fs : gmap pystr (list row);
  logs : list (level * pystr);
  row_obj : row
}.

Definition set_world (w : World) (st : state) : state :=
  mkState w (fs st) (logs st) (row_obj st).
Definition set_fs (f : gmap pystr (list row)) (st : state) : state :=
  mkState (world st) f (logs st) (row_obj st).
Definition add_log (l : level) (msg : pystr) (st : state) : state :=
  mkState (world st) (fs st) (logs st ++ [(l, msg)]) (row_obj st).
Definition set_row_obj (r : row) (st : state) : state :=
  mkState (world st) (fs st) (logs st) r.

Definition M (A : Type) : Type := state -> result A * state.

Definition ret {A} (a : A) : M A := fun st => (Return a, st).
Definition raise {A} (e : exn) : M A := fun st => (Raise e, st).
Definition sys_exit {A} (code : Z) : M A := fun st => (Exit code, st).

Definition bind {A B} (m : M A) (k : A -> M B) : M B :=
  fun st =>
    match m st with
    | (Return a, st') => k a st'
    | (Raise e, st') => (Raise e, st')
    | (Exit c, st') => (Exit c, st')
    end.

(** [try: m  except ...: h e]: [h e = None] when no clause names [e]. *)
Definition try_except {A} (m : M A) (h : exn -> option (M A)) : M A :=
  fun st =>
    match m st with
    | (Raise e, st') =>
        match h e with
        | Some k => k st'
        | None => (Raise e, st')
        end
    | r => r
    end.

Notation "x <- m ;; k" := (bind m (fun x => k))
  (at level 100, m at next level, right associativity).
Notation "m ;;; k" := (bind m (fun _ => k))
  (at level 100, right associativity).

Definition call {A} (f : World -> outcome A * World) : M A :=
  fun st =>
    let '(o, w) := f (world st) in
    match o with
    | Ok a => (Return a, set_world w st)
    | Err e => (Raise e, set_world w st)
    end.

Definition pure_call {A} (o : outcome A) : M A :=
  match o with
  | Ok a => ret a
  | Err e => raise e
  end.

Definition log (l : level) (msg : pystr) : M unit :=
  fun st => (Return tt, add_log l msg st).

Definition get_row : M row := fun st => (Return (row_obj st), st).
Definition set_row (r : row) : M unit :=
  fun st => (Return tt, set_row_obj r st).

Definition io_check (op : io_op) : M unit :=
  fun st =>
    let '(o, w) := io_error op (world st) in
    match o with
    | None => (Return tt, set_world w st)
    | Some e => (Raise e, set_world w st)
    end.

(** [open(path, 'r', newline='')].  A file that is not there cannot be
    opened: the error is the one the operating system gives
    ([NotADirectoryError], [PermissionError], ...), [FileNotFoundError] when
    it names no other. *)
Definition open_read (path : pystr) : M unit :=
  fun st =>
    match fs st !! path with
    | None =>
        let '(o, w) := io_error (OpenRead path) (world st) in
        (Raise (default (mkExn FileNotFoundError path) o), set_world w st)
    | Some _ => io_check (OpenRead path) st
    end.

(** [open(path, 'w', newline='')]: the file is created or truncated. *)
Definition open_write (path : pystr) : M unit :=
  io_check (OpenWrite path) ;;;
  fun st => (Return tt, set_fs (<[path := []]> (fs st)) st).

(** [csv.reader(infile)]: the rows it will yield.  The reader is lazy; it
    reads the input once both files are open, and nothing writes to the
    input after that unless it is the output, which is then empty. *)
Definition csv_reader (path : pystr) : M (list row) :=
  fun st => (Return (default [] (fs st !! path)), st).

(** [writer.writerow(r)] on the file opened at [path] *)
Definition writerow (path : pystr) (r : row) : M unit :=
  io_check (WriteRow r) ;;;
  fun st =>
    (Return tt, set_fs (<[path := default [] (fs st !! path) ++ [r]]> (fs st)) st).

(** A computation that leaves the files and the [row] object alone and does
    not end the process. *)
Definition benign {A} (m : M A) : Prop :=
  forall st,
    fs (m st).2 = fs st /\ row_obj (m st).2 = row_obj st /\
    forall c, (m st).1 <> Exit c.

(** ** The value fabricator *)

Definition permute_data_format (data data_type locale : pystr) : M pystr :=
  fake <- call (Faker locale) ;;
  try_except
    (if decide (data_type = tag_date) then
       try_except
         (_ <- call (dateutil_parse data) ;;
          call (date_time_this_decade_ymd fake))
         (fun e =>
            if isinstance e ValueError
            then Some (log WARNING (u "Could not parse date: " ++ data
                                      ++ u ". Returning original value.") ;;;
                       ret data)
            else None)
     else if decide (data_type = tag_currency) then
       _ <- pure_call (py_float (str_replace (str_replace data (u "$") []) (u ",") [])) ;;
       a <- call (random_number fake 3) ;;
       b <- call (random_number fake 2) ;;
       ret (u "$" ++ str_of_int a ++ u "." ++ str_of_int b)
     else if decide (data_type = tag_telephone) then
       call (phone_number fake)
     else
       log WARNING (u "Unknown data type: " ++ data_type
                      ++ u ". Returning random string.") ;;;
       call (fake_pystr fake (length data) (length data)))
    (fun e =>
       Some (log ERROR (u "Error permuting data: " ++ exn_msg e
                          ++ u ". Returning original value.") ;;;
             ret data)).

(** ** The row pipeline *)

Record Args : Type := mkArgs {
  csv_file : pystr;
  column_name : pystr;
  output_file : option pystr;
  locale : pystr
}.

(** [args.output_file or csv_file.replace(".csv", "_masked.csv")]: [None]
    and the empty string are falsy. *)
Definition resolve_output_file (a : Args) : pystr :=
  match output_file a with
  | Some (c :: s) => c :: s
  | _ => str_replace (csv_file a) (u ".csv") (u "_masked.csv")
  end.

(** What the handlers of lines 126 and 129 log for [e]. *)
Definition row_log (e : exn) : level * pystr :=
  if isinstance e IndexError
  then (WARNING, u "Row has fewer columns than expected. Skipping row.")
  else (ERROR, u "Error processing row: " ++ exn_msg e ++ u ". Writing original row.").

(** The body of the loop, lines 120 to 131; [row] is [row_obj]. *)
Definition process_row (out : pystr) (column_index : nat) (locale : pystr) : M unit :=
  try_except
    (r <- get_row ;;
     original_data <- match r !! column_index with
                      | Some c => ret c
                      | None => raise (mkExn IndexError (u "list index out of range"))
                      end ;;
     let data_type := detect_data_type (PStr original_data) in
     masked_data <- permute_data_format original_data data_type locale ;;
     r <- get_row ;;
     set_row (<[column_index := masked_data]> r) ;;;
     r <- get_row ;;
     writerow out r)
    (fun e =>
       if isinstance e IndexError
       then Some (log WARNING (u "Row has fewer columns than expected. Skipping row.") ;;;
                  r <- get_row ;;
                  writerow out r)
       else Some (log ERROR (u "Error processing row: " ++ exn_msg e
                               ++ u ". Writing original row.") ;;;
                  r <- get_row ;;
                  writerow out r)).


(** [for row in reader: ...] *)
Fixpoint process_rows (out : pystr) (column_index : nat) (locale : pystr)
    (reader : list row) : M unit :=
  match reader with
  | [] => ret tt
  | r :: reader' =>
      set_row r ;;;
      process_row out column_index locale ;;;
      process_rows out column_index locale reader'
  end.

(** Lines 104 to 111: both files opened, the header read and copied. *)
Definition open_and_copy_header (csv_file output_file : pystr) : M (row * list row) :=
  open_read csv_file ;;;
  open_write output_file ;;;
  reader <- csv_reader csv_file ;;
  match reader with
  | [] => raise (mkExn StopIteration [])
  | header :: reader' =>
      writerow output_file header ;;;
      ret (header, reader')
  end.

(** What the handlers of lines 134 and 137 log for [e]. *)
Definition top_log (a : Args) (e : exn) : pystr :=
  if isinstance e FileNotFoundError
  then u "File '" ++ csv_file a ++ u "' not found."
  else u "An unexpected error occurred: " ++ exn_msg e.

Definition main (a : Args) : M unit :=
  let output_file := resolve_output_file a in
  try_except
    (opened <- open_and_copy_header (csv_file a) output_file ;;
     let '(header, reader) := opened in
     column_index <-
       try_except
         (match list_index (column_name a) header with
          | Some i => ret i
          | None => raise (mkExn ValueError (column_name a ++ u " is not in list"))
          end)
         (fun e =>
            if isinstance e ValueError
            then Some (log ERROR (u "Column '" ++ column_name a
                                    ++ u "' not found in the CSV file.") ;;;
                       sys_exit 1%Z)
            else None) ;;
     process_rows output_file column_index (locale a) reader ;;;
     log INFO (u "Data masking completed. Output written to " ++ output_file))
    (fun e =>
       if isinstance e FileNotFoundError
       then Some (log ERROR (u "File '" ++ csv_file a ++ u "' not found.") ;;;
                  sys_exit 1%Z)
       else Some (log ERROR (u "An unexpected error occurred: " ++ exn_msg e) ;;;
                  sys_exit 1%Z)).

(** The exit status of the process that runs [main()]. *)
Definition exit_status (a : Args) (st : state) : Z * state :=
  match main a st with
  | (Return _, st') => (0%Z, st')
  | (Exit c, st') => (c, st')
  | (Raise _, st') => (1%Z, st')
  end.

End Program.

(** ** A deterministic stand-in for the libraries

    Faker's generators, dateutil and the operating system replaced by fixed
    functions, as a test of the program injects them.  The world is the next
    random draw and the failures scripted for the coming [writerow] calls. *)
Module Double.

Definition ascii_only : UnicodeDB :=
  {| uni_isspace := fun _ => false; uni_isdecimal := fun _ => false |}.

Definition lib : Library := {|
  World := nat * list bool;
  FakerT := pystr;
  PyFloat := unit;
  Faker := fun locale w =>
    if bool_decide (locale ∈ [u "en_US"; u "fr_FR"])
    then (Ok locale, w)
    else (Err (mkExn AttributeError
                 (u "Invalid configuration for faker locale `" ++ locale ++ u "`")), w);
  dateutil_parse := fun s w =>
    match s with
    | c :: _ => if ascii_digit c then (Ok tt, w)
                else (Err (mkExn ParserError (u "Unknown string format: " ++ s)), w)
    | [] => (Err (mkExn ParserError (u "String does not contain a date: ")), w)
    end;
  date_time_this_decade_ymd := fun _ w => (Ok (u "2024-02-29"), w);
  random_number := fun _ digits '(n, io) =>
    (Ok (Z.of_nat ((7 + n) mod 10 ^ digits)), (S n, io));
  phone_number := fun _ w => (Ok (u "(555) 010-0199"), w);
  fake_pystr := fun _ lo hi w =>
    if (lo <=? hi)%nat
    then (Ok (replicate lo (ch "x")), w)
    else (Err (mkExn ValueError (u "Maximum length must be greater than or equal to minimum length")), w);
  py_float := fun s =>
    match s with
    | [] => Err (mkExn ValueError (u "could not convert string to float: ''"))
    | _ :: _ =>
        if forallb (fun c => ascii_digit c || (c =? ch ".")) s
        then Ok tt
        else Err (mkExn ValueError (u "could not convert string to float: " ++ s))
    end;
  io_error := fun op '(n, io) =>
    match op, io with
    | WriteRow _, true :: io' => (Some (mkExn OSError (u "No space left on device")), (n, io'))
    | WriteRow _, false :: io' => (None, (n, io'))
    | _, _ => (None, (n, io))
    end
|}.

(** A two-row file and the arguments of a run on its [phone] column. *)
Definition sample_rows : list row :=
  [[u "id"; u "phone"]; [u "1"; u "555-123-4567"]; [u "2"; u "555-000-1111"]].

Definition sample_state (io : list bool) : @state lib :=
  @mkState lib (O, io) {[ u "in.csv" := sample_rows ]} [] [].

Definition sample_args (locale : pystr) : Args :=
  mkArgs (u "in.csv") (u "phone") None locale.

End Double.

(** ** Vocabulary for the properties of the pipeline *)

(** The characters a match of [r] can begin with. *)
Fixpoint first_char (r : regex) (c : N) : bool :=
  match r with
  | Void => false
  | Eps => false
  | Sym p => p c
  | Cat r1 r2 => first_char r1 c || (nullable r1 && first_char r2 c)
  | Alt r1 r2 => first_char r1 c || first_char r2 c
  | Star r1 => first_char r1 c
  end.

(** The telephone pattern from [\)?] on: what follows the area code. *)
Definition telephone_rest {UCD : UnicodeDB} : regex :=
  Seq [Opt (Lit (ch ")")); Opt sep; Rep 3 digit; Opt sep; Rep 4 digit].

Section Vocabulary.
Context {LIB : Library}.



End Vocabulary.

(** The stand-in library on a system where no file operation fails. *)
Module Reliable.

Definition lib : Library := {|
  World := @World Double.lib;
  FakerT := @FakerT Double.lib;
  PyFloat := @PyFloat Double.lib;
  Faker := @Faker Double.lib;
  dateutil_parse := @dateutil_parse Double.lib;
  date_time_this_decade_ymd := @date_time_this_decade_ymd Double.lib;
  random_number := @random_number Double.lib;
  phone_number := @phone_number Double.lib;
  fake_pystr := @fake_pystr Double.lib;
  py_float := @py_float Double.lib;
  io_error := fun _ w => (None, w)
|}.



End Reliable.

(** The stand-in library on a system where the directory [missing/] does
    not exist: opening a file in it for writing raises [FileNotFoundError]. *)
Module NoDirectory.

Definition lib : Library := {|
  World := @World Double.lib;
  FakerT := @FakerT Double.lib;
  PyFloat := @PyFloat Double.lib;
  Faker := @Faker Double.lib;
  dateutil_parse := @dateutil_parse Double.lib;
  date_time_this_decade_ymd := @date_time_this_decade_ymd Double.lib;
  random_number := @random_number Double.lib;
  phone_number := @phone_number Double.lib;
  fake_pystr := @fake_pystr Double.lib;
  py_float := @py_float Double.lib;
  io_error := fun op w =>
    match op with
    | OpenWrite path =>
        if prefix_b (u "missing/") path
        then (Some (mkExn FileNotFoundError (u "No such file or directory: " ++ path)), w)
        else (None, w)
    | _ => (None, w)
    end
|}.

Definition state0 : @state lib :=
  @mkState lib (O, []) {[ u "in.csv" := Double.sample_rows ]} [] [].

Definition args0 : Args :=
  mkArgs (u "in.csv") (u "phone") (Some (u "missing/out.csv")) (u "en_US").

End NoDirectory.

(** * Properties *)

(** ** Text *)

Section TextFacts.
Context {UCD : UnicodeDB}.

Lemma lstrip_head (s : pystr) :
  lstrip s = [] \/ exists c t, lstrip s = c :: t /\ isspace c = false.
Proof.
  induction s as [|c s IH]; simpl; [by left|].
  destruct (isspace c) eqn:E; [exact IH|].
  right. by exists c, s.
Qed.

Lemma rstrip_cons_nonspace (c : N) (s : pystr) :
  isspace c = false -> rstrip (c :: s) = c :: rstrip s.
Proof. intros E. simpl. rewrite E. by destruct (rstrip s). Qed.

Lemma lstrip_cons_nonspace (c : N) (s : pystr) :
  isspace c = false -> lstrip (c :: s) = c :: s.
Proof. intros E. simpl. by rewrite E. Qed.

Lemma rstrip_idem (s : pystr) : rstrip (rstrip s) = rstrip s.
Proof.
  induction s as [|c s IH]; [done|].
  simpl. destruct (rstrip s) as [|x t] eqn:E.
  - destruct (isspace c) eqn:Ec; simpl; [done|]. by rewrite Ec.
  - change (rstrip (c :: x :: t)) with
      (match rstrip (x :: t) with [] => if isspace c then [] else [c] | y => c :: y end).
    by rewrite IH.
Qed.

Lemma strip_idem (s : pystr) : strip (strip s) = strip s.
Proof.
  unfold strip.
  destruct (lstrip_head s) as [E | (c & t & E & Ec)]; rewrite E.
  - reflexivity.
  - rewrite (rstrip_cons_nonspace _ _ Ec), (lstrip_cons_nonspace _ _ Ec).
    rewrite <- (rstrip_cons_nonspace _ _ Ec). apply rstrip_idem.
Qed.

Lemma lstrip_app (s g : pystr) : lstrip s <> [] -> lstrip (s ++ g) = lstrip s ++ g.
Proof.
  induction s as [|c s IH]; simpl; [done|].
  destruct (isspace c); [exact IH | done].
Qed.

Lemma rstrip_app (s g : pystr) :
  rstrip s <> [] -> exists t, rstrip (s ++ g) = rstrip s ++ t.
Proof.
  induction s as [|c s IH]; [done|].
  intros Hne. destruct (rstrip s) as [|x t] eqn:E.
  - simpl in Hne. rewrite E in Hne.
    destruct (isspace c) eqn:Ec; [done|].
    exists (rstrip (s ++ g)).
    change ((c :: s) ++ g) with (c :: (s ++ g)).
    rewrite !(rstrip_cons_nonspace _ _ Ec), E. done.
  - destruct IH as [t' Ht']; [done|].
    exists t'. simpl. rewrite Ht', E. done.
Qed.

(** What is left of [s] after trimming is still at the start of what is left
    of [s] followed by anything. *)
Lemma strip_app (s g : pystr) :
  strip s <> [] -> exists t, strip (s ++ g) = strip s ++ t.
Proof.
  unfold strip. intros Hne.
  assert (lstrip s <> []) as Hl by (intros E; by rewrite E in Hne).
  rewrite (lstrip_app _ _ Hl). by apply rstrip_app.
Qed.

End TextFacts.

(** ** Regular expressions: [re_match] decides [has_match] *)

Lemma nullable_spec (r : regex) : nullable r = true <-> matches r [].
Proof.
  split.
  - induction r; simpl; intros Hn; try discriminate.
    + constructor.
    + apply andb_true_iff in Hn as [? ?].
      change (@nil N) with (@nil N ++ []). constructor; auto.
    + apply orb_true_iff in Hn as [?|?]; [apply m_alt_l | apply m_alt_r]; auto.
    + constructor.
  - intros Hm. remember [] as w eqn:Ew.
    induction Hm; simpl; try discriminate; auto.
    + apply app_eq_nil in Ew as [-> ->]. rewrite IHHm1, IHHm2; auto.
    + rewrite IHHm; auto.
    + rewrite IHHm; auto. apply orb_true_r.
Qed.

Lemma deriv_sound (c : N) (r : regex) (w : pystr) :
  matches (deriv c r) w -> matches r (c :: w).
Proof.
  revert w. induction r; simpl; intros w Hm.
  - inversion Hm.
  - inversion Hm.
  - destruct (p c) eqn:E; inversion Hm; subst. by constructor.
  - destruct (nullable r1) eqn:En.
    + inversion Hm as [| | | ? ? ? Hl | ? ? ? Hr | |]; subst.
      * inversion Hl; subst.
        change (c :: w1 ++ w2) with ((c :: w1) ++ w2). constructor; auto.
      * change (c :: w) with ([] ++ c :: w). constructor; auto.
        by apply nullable_spec.
    + inversion Hm; subst.
      change (c :: w1 ++ w2) with ((c :: w1) ++ w2). constructor; auto.
  - inversion Hm; subst; [apply m_alt_l | apply m_alt_r]; auto.
  - inversion Hm; subst.
    change (c :: w1 ++ w2) with ((c :: w1) ++ w2). constructor; auto.
Qed.

Lemma deriv_complete (c : N) (r : regex) (w : pystr) :
  matches r (c :: w) -> matches (deriv c r) w.
Proof.
  intros Hm. remember (c :: w) as s eqn:Es. revert w Es.
  induction Hm as [ | p x Hp | r1 r2 w1 w2 Hm1 IH1 Hm2 IH2 | r1 r2 w0 Hm IH
                  | r1 r2 w0 Hm IH | r0 | r0 w1 w2 Hm1 IH1 Hm2 IH2 ];
    intros v Es; simpl; try discriminate.
  - injection Es as -> <-. rewrite Hp. constructor.
  - destruct w1 as [|x w1]; simpl in Es.
    + subst w2. apply nullable_spec in Hm1 as ->.
      apply m_alt_r. auto.
    + injection Es as -> <-.
      destruct (nullable r1); [apply m_alt_l|]; constructor; auto.
  - apply m_alt_l; auto.
  - apply m_alt_r; auto.
  - destruct w1 as [|x w1]; simpl in Es.
    + auto.
    + injection Es as -> <-. constructor; auto.
Qed.

Lemma re_match_spec (r : regex) (s : pystr) :
  re_match r s = true <-> has_match r s.
Proof.
  revert r. induction s as [|c s IH]; intros r; simpl.
  - rewrite orb_false_r, nullable_spec. split.
    + intros Hm. by exists [], [].
    + intros (w & rest & E & Hm). symmetry in E.
      apply app_eq_nil in E as [-> _]. done.
  - rewrite orb_true_iff, nullable_spec, IH. split.
    + intros [Hm | (w & rest & -> & Hm)].
      * by exists [], (c :: s).
      * exists (c :: w), rest. split; [done|]. by apply deriv_sound.
    + intros (w & rest & E & Hm). destruct w as [|x w].
      * by left.
      * injection E as <- ->. right. exists w, rest.
        split; [done|]. by apply deriv_complete.
Qed.

Lemma has_match_app (r : regex) (s g : pystr) :
  has_match r s -> has_match r (s ++ g).
Proof.
  intros (w & rest & -> & Hm). exists w, (rest ++ g).
  by rewrite app_assoc.
Qed.

Lemma re_match_app (r : regex) (s g : pystr) :
  re_match r s = true -> re_match r (s ++ g) = true.
Proof. rewrite !re_match_spec. apply has_match_app. Qed.

(** ** The type detector *)

Section DetectorFacts.
Context {UCD : UnicodeDB}.

Lemma tags_distinct :
  tag_date <> tag_unknown /\ tag_currency <> tag_unknown /\ tag_telephone <> tag_unknown.
Proof. repeat split; discriminate. Qed.

Lemma detect_known_iff (s : pystr) :
  detect_data_type (PStr s) <> tag_unknown <->
  strip s <> [] /\
  re_match re_ymd (strip s) || re_match re_mdy (strip s)
    || re_match re_currency (strip s) || re_match re_telephone (strip s) = true.
Proof.
  unfold detect_data_type. destruct (strip s) as [|c t].
  - split; [done | by intros [? _]].
  - destruct (re_match re_ymd (c :: t)), (re_match re_mdy (c :: t)),
      (re_match re_currency (c :: t)), (re_match re_telephone (c :: t)); simpl;
      (split; [intros ?; first [done | split; [discriminate | reflexivity]]
              | intros [_ ?]; first [done | discriminate]]).
Qed.

Lemma detect_known_app (s g : pystr) :
  detect_data_type (PStr s) <> tag_unknown ->
  detect_data_type (PStr (s ++ g)) <> tag_unknown.
Proof.
  rewrite !detect_known_iff. intros [Hne Hm].
  destruct (strip_app s g Hne) as [t ->]. split.
  - destruct (strip s); [done | discriminate].
  - rewrite !orb_true_iff in *.
    destruct Hm as [[[Hm|Hm]|Hm]|Hm]; apply (re_match_app _ _ t) in Hm; auto.
Qed.

Lemma detect_date_app (s g : pystr) :
  strip s <> [] ->
  re_match re_ymd (strip s) = true ->
  detect_data_type (PStr (s ++ g)) = tag_date.
Proof.
  intros Hne Hm. unfold detect_data_type.
  destruct (strip_app s g Hne) as [t ->].
  apply (re_match_app _ _ t) in Hm. rewrite Hm.
  destruct (strip s); [done | reflexivity].
Qed.

Lemma not_has_match (r : regex) (s : pystr) :
  ~ has_match r s -> re_match r s = false.
Proof.
  intros Hn. destruct (re_match r s) eqn:E; [|done].
  by apply re_match_spec in E.
Qed.

End DetectorFacts.

(** C3. [detect_data_type] is total and returns one of the four tags
    ['date'], ['currency'], ['telephone'], ['unknown'], by ordered tests on
    the trimmed value where the first match wins: a value that is not a
    string, or is empty once trimmed, is ['unknown']; otherwise a
    [YYYY-MM-DD] prefix gives ['date'], else an [MM/DD/YYYY] prefix gives
    ['date'], else a [$] amount gives ['currency'], else the 3-3-4 phone shape
    gives ['telephone'], else ['unknown'].  The tests look at a prefix:
    characters after a match do not undo it.  The five sample values of the
    specification are classified as it says. *)
Theorem detect_data_type_first_match_wins {UCD : UnicodeDB} :
  (forall v : pyval,
     detect_data_type v ∈ [tag_date; tag_currency; tag_telephone; tag_unknown]) /\
  (forall v : pyval, (forall s, v <> PStr s) -> detect_data_type v = tag_unknown) /\
  (forall s : pystr, strip s = [] -> detect_data_type (PStr s) = tag_unknown) /\
  (forall s : pystr, strip s <> [] ->
     (has_match re_ymd (strip s) -> detect_data_type (PStr s) = tag_date) /\
     (~ has_match re_ymd (strip s) -> has_match re_mdy (strip s) ->
        detect_data_type (PStr s) = tag_date) /\
     (~ has_match re_ymd (strip s) -> ~ has_match re_mdy (strip s) ->
        has_match re_currency (strip s) ->
        detect_data_type (PStr s) = tag_currency) /\
     (~ has_match re_ymd (strip s) -> ~ has_match re_mdy (strip s) ->
        ~ has_match re_currency (strip s) -> has_match re_telephone (strip s) ->
        detect_data_type (PStr s) = tag_telephone) /\
     (~ has_match re_ymd (strip s) -> ~ has_match re_mdy (strip s) ->
        ~ has_match re_currency (strip s) -> ~ has_match re_telephone (strip s) ->
        detect_data_type (PStr s) = tag_unknown)) /\
  (forall (r : regex) (s g : pystr), re_match r s = true -> re_match r (s ++ g) = true) /\
  (forall s g : pystr,
     strip s <> [] -> has_match re_ymd (strip s) ->
     detect_data_type (PStr (s ++ g)) = tag_date) /\
  (forall s g : pystr,
     detect_data_type (PStr s) <> tag_unknown ->
     detect_data_type (PStr (s ++ g)) <> tag_unknown) /\
  detect_data_type (PStr (u "2023-05-01...")) = tag_date /\
  detect_data_type (PStr (u "05/01/2023")) = tag_date /\
  detect_data_type (PStr (u "$1,234.56")) = tag_currency /\
  detect_data_type (PStr (u "+1 (555) 123-4567")) = tag_telephone /\
  detect_data_type (PStr (u "")) = tag_unknown /\
  detect_data_type PNone = tag_unknown.
Proof.
  split; [|split; [|split; [|split; [|split; [|split; [|split]]]]]].
  - intros [s| |z]; simpl; try (repeat constructor; fail).
    destruct (strip s); [repeat constructor|].
    destruct (re_match re_ymd _); [repeat constructor|].
    destruct (re_match re_mdy _); [repeat constructor|].
    destruct (re_match re_currency _); [repeat constructor|].
    destruct (re_match re_telephone _); repeat constructor.
  - intros [s| |z] Hv; [by destruct (Hv s) | done | done].
  - intros s E. simpl. by rewrite E.
  - intros s Hne. unfold detect_data_type.
    destruct (strip s) as [|c t] eqn:E; [done|].
    repeat split.
    + intros H1. apply re_match_spec in H1. by rewrite H1.
    + intros H1 H2. rewrite (not_has_match _ _ H1).
      apply re_match_spec in H2. by rewrite H2.
    + intros H1 H2 H3. rewrite (not_has_match _ _ H1), (not_has_match _ _ H2).
      apply re_match_spec in H3. by rewrite H3.
    + intros H1 H2 H3 H4.
      rewrite (not_has_match _ _ H1), (not_has_match _ _ H2), (not_has_match _ _ H3).
      apply re_match_spec in H4. by rewrite H4.
    + intros H1 H2 H3 H4.
      by rewrite (not_has_match _ _ H1), (not_has_match _ _ H2),
        (not_has_match _ _ H3), (not_has_match _ _ H4).
  - apply re_match_app.
  - intros s g Hne Hm. apply detect_date_app; [done|]. by apply re_match_spec.
  - apply detect_known_app.
  - repeat split; vm_compute; reflexivity.
Qed.

(** C9. The detector trims its argument before every test, so a string and
    its [strip()] are classified alike. *)
Theorem detect_data_type_strip_invariant {UCD : UnicodeDB} (s : pystr) :
  detect_data_type (PStr s) = detect_data_type (PStr (strip s)).
Proof. simpl. by rewrite strip_idem. Qed.

(** ** [str.replace] and the default output path *)

Lemma prefix_b_spec (p s : pystr) :
  prefix_b p s = true <-> exists rest, s = p ++ rest.
Proof.
  revert s. induction p as [|a p IH]; intros s; simpl.
  - split; [by exists s | done].
  - destruct s as [|b s].
    + split; [done | by intros [? ?]].
    + rewrite andb_true_iff, N.eqb_eq, IH. split.
      * intros [-> [rest ->]]. by exists rest.
      * intros [rest E]. injection E as -> ->. split; [done | by exists rest].
Qed.

Lemma occurs_cons (pat s : pystr) (c : N) :
  ~ occurs pat (c :: s) -> ~ occurs pat s.
Proof.
  intros Hn (p & q & ->). apply Hn. by exists (c :: p), q.
Qed.

Lemma not_occurs_not_prefix (pat s : pystr) :
  ~ occurs pat s -> prefix_b pat s = false.
Proof.
  intros Hn. destruct (prefix_b pat s) eqn:E; [|done].
  apply prefix_b_spec in E as [rest ->]. destruct Hn. by exists [], rest.
Qed.

(** Without an occurrence of [old], [replace] gives the string back. *)
Lemma replace_from_absent (old new s : pystr) :
  ~ occurs old s -> replace_from old new O s = s.
Proof.
  induction s as [|c s IH]; intros Hn; simpl; [done|].
  destruct old as [|a old]; [destruct Hn; by exists [], (c :: s)|].
  rewrite (not_occurs_not_prefix _ _ Hn).
  by rewrite IH by (by eapply occurs_cons).
Qed.

Lemma replace_from_skip (old new : pystr) (k : nat) (s : pystr) :
  replace_from old new k s = replace_from old new O (drop k s).
Proof.
  revert s. induction k as [|k IH]; intros s; [by rewrite drop_0|].
  destruct s as [|c s]; [done|]. simpl. apply IH.
Qed.

(** At an occurrence, [new] is put and the scan goes on after it. *)
Lemma replace_from_here (old new q : pystr) :
  old <> [] ->
  replace_from old new O (old ++ q) = new ++ replace_from old new O q.
Proof.
  intros Hne. destruct old as [|a old]; [done|].
  change ((a :: old) ++ q) with (a :: (old ++ q)).
  cbn [replace_from].
  replace (prefix_b (a :: old) (a :: old ++ q)) with true
    by (symmetry; apply prefix_b_spec; by exists q).
  rewrite replace_from_skip.
  replace (length (a :: old) - 1)%nat with (length old) by (simpl; lia).
  by rewrite drop_app_length.
Qed.

(** [.csv] does not begin inside a string free of it and end in a [.csv]
    that follows. *)
Lemma csv_not_astride (p q : pystr) :
  p <> [] -> ~ occurs (u ".csv") p ->
  prefix_b (u ".csv") (p ++ u ".csv" ++ q) = false.
Proof.
  intros Hne Hn.
  destruct (prefix_b (u ".csv") (p ++ u ".csv" ++ q)) eqn:E; [|done].
  apply prefix_b_spec in E as [rest E].
  destruct p as [|c0 [|c1 [|c2 [|c3 p]]]]; try done;
    try (injection E; intros; subst; discriminate).
  destruct Hn. injection E as -> -> -> -> E.
  by exists [], p.
Qed.

Lemma replace_csv_first (new p q : pystr) :
  ~ occurs (u ".csv") p ->
  replace_from (u ".csv") new O (p ++ u ".csv" ++ q)
  = p ++ new ++ replace_from (u ".csv") new O q.
Proof.
  induction p as [|c p IH]; intros Hn.
  - rewrite !app_nil_l. by apply replace_from_here.
  - change ((c :: p) ++ u ".csv" ++ q) with (c :: (p ++ u ".csv" ++ q)).
    cbn [replace_from].
    change (c :: (p ++ u ".csv" ++ q)) with ((c :: p) ++ u ".csv" ++ q).
    rewrite (csv_not_astride (c :: p) q) by done.
    rewrite IH by (by eapply occurs_cons). done.
Qed.

(** ** The fabricator and the pipeline *)

Section ProgramFacts.
Context {UCD : UnicodeDB} {LIB : Library}.

Notation "x <- m ;; k" := (bind m (fun x => k))
  (at level 100, m at next level, right associativity).
Notation "m ;;; k" := (bind m (fun _ => k))
  (at level 100, right associativity).

Lemma benign_ret {A} (a : A) : benign (ret a).
Proof. by intros st. Qed.

Lemma benign_raise {A} (e : exn) : benign (raise (A := A) e).
Proof. by intros st. Qed.

Lemma benign_log (l : level) (msg : pystr) : benign (log l msg).
Proof. by intros st. Qed.

Lemma benign_call {A} (f : World -> outcome A * World) : benign (call f).
Proof.
  intros st. unfold call. destruct (f (world st)) as [[a|e] w]; by simpl.
Qed.

Lemma benign_pure_call {A} (o : outcome A) : benign (pure_call o).
Proof. destruct o; [apply benign_ret | apply benign_raise]. Qed.

Lemma benign_bind {A B} (m : M A) (k : A -> M B) :
  benign m -> (forall a, benign (k a)) -> benign (bind m k).
Proof.
  intros Hm Hk st. unfold bind.
  destruct (Hm st) as (Hf & Hr & Hx).
  destruct (m st) as [[a|e|c] st1]; simpl in *.
  - destruct (Hk a st1) as (Hf' & Hr' & Hx'). by rewrite Hf', Hr'.
  - done.
  - by destruct (Hx c).
Qed.

Lemma benign_try {A} (m : M A) (h : exn -> option (M A)) :
  benign m -> (forall e k, h e = Some k -> benign k) -> benign (try_except m h).
Proof.
  intros Hm Hh st. unfold try_except.
  destruct (Hm st) as (Hf & Hr & Hx).
  destruct (m st) as [[a|e|c] st1]; simpl in *; try done.
  destruct (h e) as [k|] eqn:E; [|done].
  destruct (Hh e k E st1) as (Hf' & Hr' & Hx'). by rewrite Hf', Hr'.
Qed.

Create HintDb benign.
#[local] Hint Resolve benign_ret benign_raise benign_log benign_call
  benign_pure_call : benign.

(** When [Faker(locale)] raises, nothing in [permute_data_format] catches
    it: line 38 is before the [try]. *)
Lemma permute_faker_raises (data data_type locale : pystr) (st : state)
    (e : exn) (w : World) :
  Faker locale (world st) = (Err e, w) ->
  permute_data_format data data_type locale st
  = (Raise e, set_world w st).
Proof.
  intros E. unfold permute_data_format, bind, call. by rewrite E.
Qed.

(** When [Faker(locale)] returns, so does [permute_data_format]; the files
    and the row are as before. *)
Lemma permute_faker_returns (data data_type locale : pystr) (st : state)
    (fake : FakerT) (w : World) :
  Faker locale (world st) = (Ok fake, w) ->
  exists v st',
    permute_data_format data data_type locale st = (Return v, st') /\
    fs st' = fs st /\ row_obj st' = row_obj st.
Proof.
  intros E. unfold permute_data_format.
  unfold bind at 1. unfold call at 1. rewrite E.
  match goal with |- context [try_except ?m ?h ?s] =>
    assert (benign m) as Hb; [|set (body := m) in *; set (st1 := s) in *] end.
  { repeat case_decide.
    - apply benign_try.
      + apply benign_bind; auto with benign.
      + intros e k Hk. destruct (isinstance e ValueError); [|done].
        injection Hk as <-. apply benign_bind; auto with benign.
    - repeat (apply benign_bind; [auto with benign | intros ?]). auto with benign.
    - auto with benign.
    - apply benign_bind; auto with benign. }
  unfold try_except. destruct (Hb st1) as (Hf & Hr & Hx).
  destruct (body st1) as [[v|e|c] st2]; simpl in *.
  - by exists v, st2.
  - eexists _, _. split; [reflexivity|]. by simpl.
  - by destruct (Hx c).
Qed.

(** A date that dateutil cannot parse: the value comes back as it was, with
    a warning for a [ValueError] and an error line for anything else. *)
Lemma permute_date_unparsed (data locale : pystr) (st : state)
    (fake : FakerT) (e : exn) (w1 w2 : World) :
  Faker locale (world st) = (Ok fake, w1) ->
  dateutil_parse data w1 = (Err e, w2) ->
  permute_data_format data tag_date locale st
  = (Return data,
     add_log (if isinstance e ValueError then WARNING else ERROR)
       (if isinstance e ValueError
        then u "Could not parse date: " ++ data ++ u ". Returning original value."
        else u "Error permuting data: " ++ exn_msg e ++ u ". Returning original value.")
       (set_world w2 st)).
Proof.
  intros Hf Hp. unfold permute_data_format.
  unfold bind at 1. unfold call at 1. rewrite Hf.
  rewrite decide_True by reflexivity.
  unfold try_except. unfold bind at 1. unfold call at 1.
  cbn [world set_world]. rewrite Hp.
  destruct (isinstance e ValueError); reflexivity.
Qed.

Lemma permute_outcome (data data_type locale : pystr) (st : state) :
  (exists e w, Faker locale (world st) = (Err e, w) /\
     permute_data_format data data_type locale st = (Raise e, set_world w st)) \/
  (exists v st',
     permute_data_format data data_type locale st = (Return v, st') /\
     fs st' = fs st /\ row_obj st' = row_obj st).
Proof.
  destruct (Faker locale (world st)) as [[fake|e] w] eqn:E.
  - right. by eapply permute_faker_returns.
  - left. exists e, w. split; [done|]. by apply permute_faker_raises.
Qed.

End ProgramFacts.

Section PipelineFacts.
Context {UCD : UnicodeDB} {LIB : Library}.

Lemma writerow_cases (out : pystr) (r : row) (st : state) :
  (exists w, io_error (WriteRow r) (world st) = (None, w) /\
     writerow out r st
     = (Return tt,
        set_fs (<[out := default [] (fs st !! out) ++ [r]]> (fs st)) (set_world w st))) \/
  (exists e w, io_error (WriteRow r) (world st) = (Some e, w) /\
     writerow out r st = (Raise e, set_world w st)).
Proof.
  unfold writerow, bind, io_check.
  destruct (io_error (WriteRow r) (world st)) as [[e|] w]; [right | left]; eauto.
Qed.

(** The loop body, outcome by outcome.  The handlers write [row] as it is
    when they run: after line 124 it holds the replaced cell. *)
Lemma process_row_eq (out : pystr) (idx : nat) (loc : pystr) (st : state) :
  process_row out idx loc st =
  match row_obj st !! idx with
  | None =>
      let e := mkExn IndexError (u "list index out of range") in
      writerow out (row_obj st) (add_log (row_log e).1 (row_log e).2 st)
  | Some c =>
      match permute_data_format c (detect_data_type (PStr c)) loc st with
      | (Return m, st1) =>
          let r2 := <[idx := m]> (row_obj st) in
          match writerow out r2 (set_row_obj r2 st1) with
          | (Raise e, st2) => writerow out r2 (add_log (row_log e).1 (row_log e).2 st2)
          | other => other
          end
      | (Raise e, st1) =>
          writerow out (row_obj st) (add_log (row_log e).1 (row_log e).2 st1)
      | (Exit c, st1) => (Exit c, st1)
      end
  end.
Proof.
  unfold process_row, try_except.
  unfold bind at 1. unfold get_row at 1.
  destruct (row_obj st !! idx) as [c|] eqn:Ec.
  - unfold bind at 1. unfold ret at 1.
    unfold bind at 1.
    destruct (permute_outcome c (detect_data_type (PStr c)) loc st)
      as [(e & w & _ & ->) | (m & st1 & -> & Hf & Hr)].
    + unfold row_log. destruct (isinstance e IndexError); reflexivity.
    + unfold bind at 1. unfold get_row at 1.
      unfold bind at 1. unfold set_row at 1.
      unfold bind at 1. unfold get_row at 1.
      rewrite Hr. cbn [row_obj set_row_obj].
      destruct (writerow_cases out (<[idx:=m]> (row_obj st))
                  (set_row_obj (<[idx:=m]> (row_obj st)) st1))
        as [(w & _ & ->) | (e & w & _ & ->)]; [done|].
      unfold row_log. destruct (isinstance e IndexError); reflexivity.
  - unfold bind at 1. unfold raise at 1. reflexivity.
Qed.




Lemma process_rows_cons (out : pystr) (idx : nat) (loc : pystr)
    (r : row) (reader : list row) (st : state) :
  process_rows out idx loc (r :: reader) st =
  match process_row out idx loc (set_row_obj r st) with
  | (Return _, st1) => process_rows out idx loc reader st1
  | (Raise e, st1) => (Raise e, st1)
  | (Exit c, st1) => (Exit c, st1)
  end.
Proof. reflexivity. Qed.


Lemma open_and_copy_header_outcome (csv out : pystr) (st : state) :
  match open_and_copy_header csv out st with
  | (Return (header, reader), st1) =>
      csv <> out /\ fs st !! csv = Some (header :: reader) /\
      fs st1 = <[out := [header]]> (fs st) /\ logs st1 = logs st
  | (Raise _, _) => True
  | (Exit _, _) => False
  end.
Proof.
  unfold open_and_copy_header.
  unfold bind at 1. unfold open_read.
  destruct (fs st !! csv) as [content|] eqn:Ec;
    [|by destruct (io_error (OpenRead csv) (world st)) as [o w]].
  unfold io_check at 1.
  destruct (io_error (OpenRead csv) (world st)) as [[e|] w1]; [done|].
  unfold bind at 1. unfold open_write. unfold bind at 1. unfold io_check at 1.
  cbn [world set_world].
  destruct (io_error (OpenWrite out) w1) as [[e|] w2]; [done|].
  unfold bind at 1. unfold csv_reader at 1. cbn [fs set_fs set_world].
  destruct (decide (csv = out)) as [->|Hne].
  - rewrite lookup_insert_eq. done.
  - rewrite lookup_insert_ne by done. rewrite Ec. cbn [from_option id].
    destruct content as [|header reader]; [done|].
    unfold bind at 1.
    match goal with |- context [writerow ?o ?r ?s] =>
      destruct (writerow_cases o r s) as [(w' & _ & ->) | (e' & w' & _ & ->)] end;
      [|done].
    unfold ret. cbn. rewrite lookup_insert_eq. cbn.
    by rewrite insert_insert_eq.
Qed.

(** Input and output the same file: the second [open] empties it, and the
    reader has no header to give. *)
Lemma open_same_file (path : pystr) (st : state) (content : list row) (w1 w2 : World) :
  fs st !! path = Some content ->
  io_error (OpenRead path) (world st) = (None, w1) ->
  io_error (OpenWrite path) w1 = (None, w2) ->
  open_and_copy_header path path st
  = (Raise (mkExn StopIteration []), set_fs (<[path := []]> (fs st)) (set_world w2 st)).
Proof.
  intros Hc H1 H2. unfold open_and_copy_header.
  unfold bind at 1. unfold open_read. rewrite Hc.
  unfold io_check at 1. rewrite H1.
  unfold bind at 1. unfold open_write. unfold bind at 1. unfold io_check at 1.
  cbn [world set_world]. rewrite H2.
  unfold bind at 1. unfold csv_reader at 1. cbn [fs set_fs set_world].
  rewrite lookup_insert_eq. reflexivity.
Qed.

Lemma main_open_fails (a : Args) (st st1 : state) (e : exn) :
  open_and_copy_header (csv_file a) (resolve_output_file a) st = (Raise e, st1) ->
  main a st = (Exit 1%Z, add_log ERROR (top_log a e) st1).
Proof.
  intros H. unfold main, try_except. unfold bind at 1. rewrite H.
  unfold top_log. destruct (isinstance e FileNotFoundError); reflexivity.
Qed.

Lemma main_after_header (a : Args) (st st1 : state) (header : row) (reader : list row) :
  open_and_copy_header (csv_file a) (resolve_output_file a) st
  = (Return (header, reader), st1) ->
  main a st =
  match list_index (column_name a) header with
  | None =>
      (Exit 1%Z,
       add_log ERROR (u "Column '" ++ column_name a ++ u "' not found in the CSV file.") st1)
  | Some idx =>
      match process_rows (resolve_output_file a) idx (locale a) reader st1 with
      | (Return _, st2) =>
          (Return tt,
           add_log INFO (u "Data masking completed. Output written to "
                           ++ resolve_output_file a) st2)
      | (Raise e, st2) => (Exit 1%Z, add_log ERROR (top_log a e) st2)
      | (Exit c, st2) => (Exit c, st2)
      end
  end.
Proof.
  intros H. unfold main, try_except. unfold bind at 1. rewrite H.
  destruct (list_index (column_name a) header) as [idx|].
  - unfold bind at 1. unfold ret at 1. unfold bind at 1.
    destruct (process_rows (resolve_output_file a) idx (locale a) reader st1)
      as [[[]|e|c] st2]; try reflexivity.
    unfold top_log. destruct (isinstance e FileNotFoundError); reflexivity.
  - reflexivity.
Qed.

End PipelineFacts.

Lemma list_index_absent (x : pystr) (l : list pystr) :
  x ∉ l -> list_index x l = None.
Proof.
  induction l as [|y l IH]; [done|].
  intros Hn. simpl. apply not_elem_of_cons in Hn as [Hne Hn].
  rewrite decide_False by done. by rewrite IH.
Qed.

(** ** The claims about the pipeline *)


(** C8. Once the files are open and the header is copied, a target column
    that no header cell equals makes the run log the error and exit with
    status 1; the output file holds the header and nothing else. *)
Theorem missing_column_exits_after_header {UCD : UnicodeDB} {LIB : Library}
    (a : Args) (st st1 : state) (header : row) (reader : list row) :
  open_and_copy_header (csv_file a) (resolve_output_file a) st
    = (Return (header, reader), st1) ->
  column_name a ∉ header ->
  exists st' : state,
    exit_status a st = (1%Z, st') /\
    fs st !! csv_file a = Some (header :: reader) /\
    fs st' = <[resolve_output_file a := [header]]> (fs st) /\
    fs st' !! resolve_output_file a = Some [header] /\
    logs st' = logs st ++ [(ERROR, u "Column '" ++ column_name a
                                     ++ u "' not found in the CSV file.")].
Proof.
  intros Eo Hn.
  pose proof (open_and_copy_header_outcome (csv_file a) (resolve_output_file a) st) as Hopen.
  rewrite Eo in Hopen. destruct Hopen as (Hne & Hin & Hfs & Hlogs).
  eexists. unfold exit_status.
  rewrite (main_after_header _ _ _ _ _ Eo), (list_index_absent _ _ Hn).
  split; [reflexivity|]. cbn. rewrite Hfs, Hlogs, lookup_insert_eq. done.
Qed.

(** C10. With no output path given and no [.csv] anywhere in the input
    path, the output path is the input path: the file is opened for reading
    and then for writing, which empties it, and the run ends with status 1
    for want of a header. *)
Theorem default_output_without_csv_is_input {UCD : UnicodeDB} {LIB : Library}
    (a : Args) :
  output_file a = None ->
  ~ occurs (u ".csv") (csv_file a) ->
  resolve_output_file a = csv_file a /\
  forall (st : state) (content : list row) (w1 w2 : World),
    fs st !! csv_file a = Some content ->
    io_error (OpenRead (csv_file a)) (world st) = (None, w1) ->
    io_error (OpenWrite (csv_file a)) w1 = (None, w2) ->
    exists st' : state,
      exit_status a st = (1%Z, st') /\ fs st' = <[csv_file a := []]> (fs st).
Proof.
  intros Hout Hn.
  assert (resolve_output_file a = csv_file a) as Hsame.
  { unfold resolve_output_file. rewrite Hout. by apply replace_from_absent. }
  split; [done|].
  intros st content w1 w2 Hc H1 H2.
  pose proof (open_same_file (csv_file a) st content w1 w2 Hc H1 H2) as Eo.
  rewrite <- Hsame in Eo at 2.
  eexists. unfold exit_status. rewrite (main_open_fails _ _ _ _ Eo).
  split; reflexivity.
Qed.

(** What line 100 computes.  When the only [.csv] of the input path is its
    trailing suffix, the default output path is the input path with that
    suffix replaced by [_masked.csv], as the help text documents.
    [str.replace] does not stop there: with text after the first [.csv],
    that text is scanned and replaced in the same way. *)
Lemma default_output_replaces_each_csv (a : Args) (p q : pystr) :
  output_file a = None ->
  ~ occurs (u ".csv") p ->
  (csv_file a = p ++ u ".csv" ->
     resolve_output_file a = p ++ u "_masked.csv") /\
  (csv_file a = p ++ u ".csv" ++ q ->
     resolve_output_file a
     = p ++ u "_masked.csv" ++ str_replace q (u ".csv") (u "_masked.csv")).
Proof.
  intros Hout Hn. unfold resolve_output_file. rewrite Hout.
  assert (forall q', csv_file a = p ++ u ".csv" ++ q' ->
            str_replace (csv_file a) (u ".csv") (u "_masked.csv")
            = p ++ u "_masked.csv" ++ str_replace q' (u ".csv") (u "_masked.csv")) as H.
  { intros q' ->. by apply replace_csv_first. }
  split; [|apply H].
  intros E. rewrite (H []) by (by rewrite app_nil_r). done.
Qed.

(** C5, where the code breaks it.  The default output path is documented as
    the input path with its [.csv] suffix replaced by [_masked.csv] (help
    text of line 21, usage example of lines 149 to 152).  For the input path
    [a.csv.csv], whose trailing suffix follows [a.csv], line 100 gives
    [a_masked.csv_masked.csv] and not [a.csv_masked.csv]: [str.replace]
    replaces the [.csv] inside the name as well. *)
Lemma default_output_not_only_suffix :
  let a := mkArgs (u "a.csv.csv") (u "phone") None (u "en_US") in
  csv_file a = u "a.csv" ++ u ".csv" /\
  resolve_output_file a = u "a_masked.csv_masked.csv" /\
  resolve_output_file a <> u "a.csv" ++ u "_masked.csv".
Proof. repeat split. discriminate. Qed.

(** ** The claims about the fabricator *)

Lemma decimal_ok_below (maxlen bound : nat) :
  forallb (fun k => decimal_ok maxlen (Z.of_nat k)) (seq 0 bound) = true ->
  forall n : Z, (0 <= n < Z.of_nat bound)%Z -> decimal_ok maxlen n = true.
Proof.
  intros Hall n Hn. rewrite forallb_forall in Hall.
  rewrite <- (Z2Nat.id n) by lia. apply Hall.
  apply in_seq. lia.
Qed.

Lemma decimal_ok_spec (maxlen : nat) (n : Z) :
  decimal_ok maxlen n = true ->
  (1 <= length (str_of_int n) <= maxlen)%nat /\
  forallb ascii_digit (str_of_int n) = true.
Proof.
  unfold decimal_ok. cbn zeta.
  rewrite !andb_true_iff, !Nat.leb_le. tauto.
Qed.

(** C2, at the place where it fails.  [Faker(locale)] is called on line 38,
    before the [try] of line 39: when it raises, as Faker does for a locale
    it does not know, the exception leaves [permute_data_format], and no
    value is returned. *)
Theorem permute_data_format_raises_with_faker {LIB : Library}
    (data data_type locale : pystr) (st : state) (e : exn) (w : World) :
  Faker locale (world st) = (Err e, w) ->
  permute_data_format data data_type locale st = (Raise e, set_world w st).
Proof. apply permute_faker_raises. Qed.

Lemma permute_data_format_raises_with_faker_witness :
  permute_data_format (LIB := Double.lib) (u "2023-05-01") tag_date (u "zz_ZZ")
    (Double.sample_state [])
  = (Raise (mkExn AttributeError (u "Invalid configuration for faker locale `zz_ZZ`")),
     Double.sample_state []).
Proof.
  apply (permute_data_format_raises_with_faker (LIB := Double.lib)
           (u "2023-05-01") tag_date (u "zz_ZZ") (Double.sample_state [])).
  reflexivity.
Defined.

(** C6, amended.  For a value tagged ['currency'] whose amount parses once
    [$] and [,] are removed, and with Faker answering, the result is [$],
    [str(a)], [.], [str(b)] for the two integers Faker draws with
    [digits=3] and [digits=2]: nothing of the value is in it.  Faker draws
    [a] from 0 to 999 and [b] from 0 to 99, and they are written without
    padding: one to three digits, a dot, one or two digits. *)
Theorem permute_currency_random_amount {LIB : Library}
    (data locale : pystr) (st : state) (fake : FakerT) (x : PyFloat)
    (a b : Z) (w1 w2 w3 : World) :
  random_number_contract ->
  Faker locale (world st) = (Ok fake, w1) ->
  py_float (str_replace (str_replace data (u "$") []) (u ",") []) = Ok x ->
  random_number fake 3 w1 = (Ok a, w2) ->
  random_number fake 2 w2 = (Ok b, w3) ->
  permute_data_format data tag_currency locale st
  = (Return (u "$" ++ str_of_int a ++ u "." ++ str_of_int b), set_world w3 st) /\
  (1 <= length (str_of_int a) <= 3)%nat /\
  forallb ascii_digit (str_of_int a) = true /\
  (1 <= length (str_of_int b) <= 2)%nat /\
  forallb ascii_digit (str_of_int b) = true.
Proof.
  intros Hc Hf Hp Ha Hb. split.
  - unfold permute_data_format.
    unfold bind at 1. unfold call at 1. rewrite Hf.
    unfold try_except. rewrite decide_False by discriminate.
    rewrite decide_True by reflexivity.
    unfold bind at 1. rewrite Hp. unfold pure_call, ret at 1.
    unfold bind at 1. unfold call at 1. cbn [world set_world]. rewrite Ha.
    unfold bind at 1. unfold call at 1. cbn [world set_world]. rewrite Hb.
    reflexivity.
  - apply Hc in Ha, Hb.
    destruct (decimal_ok_spec 3 a) as [? ?].
    { apply (decimal_ok_below 3 1000); [vm_compute; reflexivity | exact Ha]. }
    destruct (decimal_ok_spec 2 b) as [? ?].
    { apply (decimal_ok_below 2 100); [vm_compute; reflexivity | exact Hb]. }
    done.
Qed.

(** C7.  For a string tagged ['unknown'], with Faker answering as it
    documents, the result is the string [fake.pystr] gives for
    [min_chars = max_chars = len(x)]: ASCII letters, as many as [x] has
    characters, and none when [x] is empty. *)
Theorem permute_unknown_keeps_length {LIB : Library}
    (x locale : pystr) (st : state) (fake : FakerT) (s : pystr) (w1 w2 : World) :
  pystr_contract ->
  Faker locale (world st) = (Ok fake, w1) ->
  fake_pystr fake (length x) (length x) w1 = (Ok s, w2) ->
  permute_data_format x tag_unknown locale st
  = (Return s,
     set_world w2
       (add_log WARNING (u "Unknown data type: " ++ tag_unknown
                           ++ u ". Returning random string.") st)) /\
  length s = length x /\
  forallb ascii_letter s = true /\
  (x = [] -> s = []).
Proof.
  intros Hc Hf Hs.
  destruct (Hc _ _ _ _ _ _ Hs) as [Hlen Hletters].
  assert (length s = length x) as El by lia.
  repeat split; try done.
  - unfold permute_data_format.
    unfold bind at 1. unfold call at 1. rewrite Hf.
    unfold try_except. rewrite !decide_False by discriminate.
    unfold bind at 1. unfold log at 1.
    unfold call at 1. cbn [world set_world add_log]. rewrite Hs.
    reflexivity.
  - intros ->. by destruct s.
Qed.

(** C4, amended.  When classifying or fabricating the cell of a data row
    raises (which is before line 124 overwrites the cell), the exception is
    caught and logged and the row is written as it was read; if that write
    succeeds, the loop goes on with the next row.  The write in the handler
    is not itself guarded: if it raises, the exception leaves the loop, and
    the top-level handler logs it and ends the run with status 1. *)
Theorem row_error_before_overwrite_recovered {UCD : UnicodeDB} {LIB : Library}
    (out : pystr) (idx : nat) (loc : pystr) (r : row) (reader : list row)
    (st st1 : state) (c : pystr) (e : exn) :
  r !! idx = Some c ->
  permute_data_format c (detect_data_type (PStr c)) loc (set_row_obj r st)
    = (Raise e, st1) ->
  let st2 := add_log (row_log e).1 (row_log e).2 st1 in
  fs st2 = fs st /\
  logs st2 = logs st ++ [row_log e] /\
  (forall w : World,
     io_error (WriteRow r) (world st2) = (None, w) ->
     process_rows out idx loc (r :: reader) st
     = process_rows out idx loc reader
         (set_fs (<[out := default [] (fs st !! out) ++ [r]]> (fs st))
                 (set_world w st2))) /\
  (forall (e' : exn) (w : World),
     io_error (WriteRow r) (world st2) = (Some e', w) ->
     process_rows out idx loc (r :: reader) st = (Raise e', set_world w st2)) /\
  (forall (a : Args) (st0 sth st' : state) (header : row) (rows : list row)
          (i : nat) (e' : exn),
     open_and_copy_header (csv_file a) (resolve_output_file a) st0
       = (Return (header, rows), sth) ->
     list_index (column_name a) header = Some i ->
     process_rows (resolve_output_file a) i (locale a) rows sth = (Raise e', st') ->
     exit_status a st0 = (1%Z, add_log ERROR (top_log a e') st')).
Proof.
  intros Hidx Hperm st2.
  assert (exists w0, st1 = set_world w0 (set_row_obj r st)) as [w0 ->].
  { destruct (permute_outcome c (detect_data_type (PStr c)) loc (set_row_obj r st))
      as [(e0 & w0 & _ & Hp) | (v & s' & Hp & _)];
      rewrite Hp in Hperm; [|discriminate].
    injection Hperm as _ <-. by exists w0. }
  assert (forall res,
            writerow out r st2 = res ->
            process_rows out idx loc (r :: reader) st =
            match res with
            | (Return _, s) => process_rows out idx loc reader s
            | (Raise e', s) => (Raise e', s)
            | (Exit k, s) => (Exit k, s)
            end) as Hstep.
  { intros res <-. rewrite process_rows_cons, process_row_eq.
    cbn [row_obj set_row_obj]. rewrite Hidx, Hperm. reflexivity. }
  split; [reflexivity|]. split.
  { subst st2. cbn. by destruct (row_log e). }
  split; [|split].
  - intros w Hio. rewrite (Hstep _ eq_refl).
    destruct (writerow_cases out r st2) as [(w' & Hio' & ->) | (e' & w' & Hio' & _)];
      rewrite Hio in Hio'; [|discriminate].
    injection Hio' as <-. reflexivity.
  - intros e' w Hio. rewrite (Hstep _ eq_refl).
    destruct (writerow_cases out r st2) as [(w' & Hio' & _) | (e2 & w' & Hio' & ->)];
      rewrite Hio in Hio'; [discriminate|].
    injection Hio' as <- <-. reflexivity.
  - intros a st0 sth st' header rows i e' Ho Hi Hrows.
    unfold exit_status.
    by rewrite (main_after_header _ _ _ _ _ Ho), Hi, Hrows.
Qed.

(** ** The stand-in library at work: the claims on concrete runs *)

Lemma double_random_number_contract : random_number_contract (LIB := Double.lib).
Proof.
  intros f digits [n io] w' k E. cbn in E. injection E as <- _.
  split; [lia|].
  change 10%Z with (Z.of_nat 10).
  rewrite <- (Nat2Z.inj_pow 10 digits). apply Nat2Z.inj_lt.
  apply Nat.mod_upper_bound. apply Nat.pow_nonzero. lia.
Qed.

Lemma double_pystr_contract : pystr_contract (LIB := Double.lib).
Proof.
  intros f lo hi w w' s E. cbn in E.
  destruct (lo <=? hi)%nat eqn:El; [|discriminate].
  injection E as <- _. apply Nat.leb_le in El.
  rewrite length_replicate. split; [lia|].
  induction lo as [|lo IH]; [done|]. simpl. apply IH. lia.
Qed.

Lemma data_has_no_csv : ~ occurs (u ".csv") (u "data").
Proof.
  intros (p & q & E).
  repeat (destruct p as [|? p]; simpl in E; [discriminate E|];
          try discriminate E; injection E as _ E).
Qed.


Lemma detect_data_type_first_match_wins_witness :
  detect_data_type (UCD := Double.ascii_only) (PStr (u "  2023-05-01T10:00 ")) = tag_date /\
  detect_data_type (UCD := Double.ascii_only) (PStr (u "555.123.4567 ext 9")) = tag_telephone.
Proof.
  destruct (detect_data_type_first_match_wins (UCD := Double.ascii_only))
    as (_ & _ & _ & H & _).
  split.
  - destruct (H (u "  2023-05-01T10:00 ")) as (H1 & _); [vm_compute; discriminate|].
    apply H1. apply re_match_spec. vm_compute. reflexivity.
  - destruct (H (u "555.123.4567 ext 9")) as (_ & _ & _ & H4 & _);
      [vm_compute; discriminate|].
    apply H4;
      try (intros Hm; apply re_match_spec in Hm; vm_compute in Hm; discriminate Hm).
    apply re_match_spec. vm_compute. reflexivity.
Defined.

Lemma row_error_before_overwrite_recovered_witness :
  process_rows (UCD := Double.ascii_only) (LIB := Double.lib)
    (u "out.csv") 1 (u "zz_ZZ") [[u "1"; u "555-123-4567"]; [u "2"; u "555-000-1111"]]
    (Double.sample_state [])
  = process_rows (UCD := Double.ascii_only) (LIB := Double.lib)
      (u "out.csv") 1 (u "zz_ZZ") [[u "2"; u "555-000-1111"]]
      (mkState (LIB := Double.lib) (O, [])
         (<[u "out.csv" := [[u "1"; u "555-123-4567"]]]> (fs (Double.sample_state [])))
         [(ERROR, u "Error processing row: Invalid configuration for faker locale `zz_ZZ`. Writing original row.")]
         [u "1"; u "555-123-4567"]).
Proof.
  destruct (row_error_before_overwrite_recovered
              (UCD := Double.ascii_only) (LIB := Double.lib)
              (u "out.csv") 1 (u "zz_ZZ") [u "1"; u "555-123-4567"]
              [[u "2"; u "555-000-1111"]] (Double.sample_state [])
              (set_row_obj [u "1"; u "555-123-4567"] (Double.sample_state []))
              (u "555-123-4567")
              (mkExn AttributeError (u "Invalid configuration for faker locale `zz_ZZ`"))
              eq_refl eq_refl) as (_ & _ & H & _).
  apply (H (O, [])). reflexivity.
Defined.

Lemma permute_currency_random_amount_witness :
  permute_data_format (LIB := Double.lib) (u "$1,234.56") tag_currency (u "en_US")
    (Double.sample_state [])
  = (Return (u "$7.8"), set_world (LIB := Double.lib) (2%nat, []) (Double.sample_state [])).
Proof.
  apply (permute_currency_random_amount (LIB := Double.lib)
           (u "$1,234.56") (u "en_US") (Double.sample_state []) (u "en_US") tt
           7%Z 8%Z (O, []) (1%nat, []) (2%nat, [])
           double_random_number_contract eq_refl eq_refl eq_refl eq_refl).
Defined.

Lemma permute_unknown_keeps_length_witness :
  permute_data_format (LIB := Double.lib) (u "n/a") tag_unknown (u "en_US")
    (Double.sample_state [])
  = (Return (u "xxx"),
     add_log (LIB := Double.lib) WARNING
       (u "Unknown data type: unknown. Returning random string.")
       (Double.sample_state [])) /\
  length (u "xxx") = length (u "n/a").
Proof.
  destruct (permute_unknown_keeps_length (LIB := Double.lib)
              (u "n/a") (u "en_US") (Double.sample_state []) (u "en_US") (u "xxx")
              (O, []) (O, [])
              double_pystr_contract eq_refl eq_refl) as (H & Hl & _).
  split; [exact H | exact Hl].
Defined.

Lemma missing_column_exits_after_header_witness :
  exists st' : state (LIB := Double.lib),
    exit_status (UCD := Double.ascii_only) (LIB := Double.lib)
      (mkArgs (u "in.csv") (u "email") None (u "en_US")) (Double.sample_state [])
    = (1%Z, st') /\
    fs st' !! u "in_masked.csv" = Some [[u "id"; u "phone"]].
Proof.
  destruct (missing_column_exits_after_header
              (UCD := Double.ascii_only) (LIB := Double.lib)
              (mkArgs (u "in.csv") (u "email") None (u "en_US"))
              (Double.sample_state [])
              (open_and_copy_header (LIB := Double.lib) (u "in.csv") (u "in_masked.csv")
                 (Double.sample_state [])).2
              [u "id"; u "phone"]
              [[u "1"; u "555-123-4567"]; [u "2"; u "555-000-1111"]])
    as (st' & Hexit & _ & _ & Hout & _).
  - vm_compute. reflexivity.
  - intros H. repeat (apply elem_of_cons in H as [H|H]; [discriminate H|]).
    by apply elem_of_nil in H.
  - exists st'. split; [exact Hexit | exact Hout].
Defined.

Lemma default_output_without_csv_is_input_witness :
  resolve_output_file (mkArgs (u "data") (u "phone") None (u "en_US")) = u "data".
Proof.
  exact (proj1 (default_output_without_csv_is_input
                  (UCD := Double.ascii_only) (LIB := Double.lib)
                  (mkArgs (u "data") (u "phone") None (u "en_US"))
                  eq_refl data_has_no_csv)).
Defined.

(** C6 as stated fails.  Faker's [random_number(digits=3)] may draw 7 and
    [random_number(digits=2)] may draw 8; the value fabricated for
    [$1,234.56] is then [$7.8], which is not [$], three digits, [.], two
    digits. *)
Lemma currency_not_three_and_two_digits :
  random_number_contract (LIB := Double.lib) /\
  (permute_data_format (LIB := Double.lib) (u "$1,234.56") tag_currency (u "en_US")
     (Double.sample_state [])).1 = Return (u "$7.8") /\
  currency_shape_3_2 (u "$7.8") = false.
Proof.
  split; [apply double_random_number_contract|].
  split; vm_compute; reflexivity.
Qed.

(** C4 as stated fails.  The write of the first data row fails (the device
    is full) and so does the write in the handler: the run ends there with
    status 1, the second row is never processed, and the output holds the
    header only. *)
Lemma row_write_error_ends_run :
  let st := Double.sample_state [false; true; true] in
  let res := exit_status (UCD := Double.ascii_only) (LIB := Double.lib)
               (Double.sample_args (u "en_US")) st in
  res.1 = 1%Z /\
  fs res.2 !! u "in_masked.csv" = Some [[u "id"; u "phone"]] /\
  logs res.2 =
    [(ERROR, u "Error processing row: No space left on device. Writing original row.");
     (ERROR, u "An unexpected error occurred: No space left on device")].
Proof. repeat split; vm_compute; reflexivity. Qed.

(** When the first write of a row fails and the handler's write succeeds,
    what the handler writes is the row as line 124 left it: the cell is the
    fabricated one, not the one read, whatever the comment on line 131
    says. *)
Example row_write_error_then_replaced_cell_written :
  let st := Double.sample_state [false; true; false] in
  let res := exit_status (UCD := Double.ascii_only) (LIB := Double.lib)
               (Double.sample_args (u "en_US")) st in
  res.1 = 0%Z /\
  fs res.2 !! u "in_masked.csv"
  = Some [[u "id"; u "phone"]; [u "1"; u "(555) 010-0199"]; [u "2"; u "(555) 010-0199"]].
Proof. repeat split; vm_compute; reflexivity. Qed.

(** * Further properties of the program *)

(** ** The loop body and the ways a run ends *)

Section PipelineRuns.
Context {UCD : UnicodeDB} {LIB : Library}.




End PipelineRuns.

(** X1. When the input file does not exist, [open] raises before the output
    file is opened: the run exits with status 1 and no file is created or
    changed.  A [FileNotFoundError] is logged as
    [File '<csv_file>' not found.]; any other error of the operating system
    ([NotADirectoryError], [PermissionError]) as
    [An unexpected error occurred: <message>]. *)
Theorem missing_input_file_exits {UCD : UnicodeDB} {LIB : Library}
    (a : Args) (st : state) (o : option exn) (w : World) :
  fs st !! csv_file a = None ->
  io_error (OpenRead (csv_file a)) (world st) = (o, w) ->
  let e := default (mkExn FileNotFoundError (csv_file a)) o in
  (isinstance e FileNotFoundError = true ->
     exit_status a st
     = (1%Z, add_log ERROR (u "File '" ++ csv_file a ++ u "' not found.")
               (set_world w st))) /\
  (isinstance e FileNotFoundError = false ->
     exit_status a st
     = (1%Z, add_log ERROR (u "An unexpected error occurred: " ++ exn_msg e)
               (set_world w st))).
Proof.
  intros Hn Hio e.
  assert (exit_status a st = (1%Z, add_log ERROR (top_log a e) (set_world w st))) as H.
  { unfold exit_status. rewrite (main_open_fails a st (set_world w st) e); [done|].
    unfold open_and_copy_header. unfold bind at 1. unfold open_read.
    by rewrite Hn, Hio. }
  unfold top_log in H. split; intros He; by rewrite He in H.
Qed.

(** X2. When the input file is empty (it has no header row) and both files
    open, the run logs [An unexpected error occurred: ] with the empty
    message of [StopIteration] and exits with status 1, leaving the output
    file created and empty. *)
Theorem empty_input_file_exits {UCD : UnicodeDB} {LIB : Library}
    (a : Args) (st : state) (w1 w2 : World) :
  fs st !! csv_file a = Some [] ->
  io_error (OpenRead (csv_file a)) (world st) = (None, w1) ->
  io_error (OpenWrite (resolve_output_file a)) w1 = (None, w2) ->
  exit_status a st
  = (1%Z,
     add_log ERROR (u "An unexpected error occurred: ")
       (set_fs (<[resolve_output_file a := []]> (fs st)) (set_world w2 st))).
Proof.
  intros Hc H1 H2. unfold exit_status.
  rewrite (main_open_fails a st
             (set_fs (<[resolve_output_file a := []]> (fs st)) (set_world w2 st))
             (mkExn StopIteration [])).
  - reflexivity.
  - unfold open_and_copy_header.
    unfold bind at 1. unfold open_read. rewrite Hc.
    unfold io_check at 1. rewrite H1.
    unfold bind at 1. unfold open_write. unfold bind at 1. unfold io_check at 1.
    cbn [world set_world]. rewrite H2.
    unfold bind at 1. unfold csv_reader at 1. cbn [fs set_fs set_world].
    destruct (decide (csv_file a = resolve_output_file a)) as [E|Hne].
    + rewrite E, lookup_insert_eq. reflexivity.
    + rewrite lookup_insert_ne by done. rewrite Hc. reflexivity.
Qed.


(** X6. A data row with fewer fields than the target index needs is written
    unchanged, with the warning [Row has fewer columns than expected.
    Skipping row.], and the loop goes on with the next row. *)
Theorem short_row_passes_through {UCD : UnicodeDB} {LIB : Library}
    (out : pystr) (idx : nat) (loc : pystr) (r : row) (reader : list row)
    (st : state) (w : World) :
  (length r <= idx)%nat ->
  io_error (WriteRow r) (world st) = (None, w) ->
  process_rows out idx loc (r :: reader) st
  = process_rows out idx loc reader
      (set_fs (<[out := default [] (fs st !! out) ++ [r]]> (fs st))
         (set_world w
            (add_log WARNING (u "Row has fewer columns than expected. Skipping row.")
               (set_row_obj r st)))).
Proof.
  intros Hlen Hio. rewrite process_rows_cons, process_row_eq.
  cbn [row_obj set_row_obj].
  destruct (r !! idx) as [c|] eqn:E.
  { apply lookup_lt_Some in E. lia. }
  cbn zeta. unfold writerow, bind, io_check.
  cbn [world add_log set_row_obj]. rewrite Hio. reflexivity.
Qed.


(** X9. A [FileNotFoundError] raised when the output file is opened (its
    directory does not exist) is reported as the input file not being
    found, although the input file exists; the run exits with status 1. *)
Theorem output_not_found_blamed_on_input {UCD : UnicodeDB} {LIB : Library}
    (a : Args) (st : state) (content : list row) (w1 w2 : World) (e : exn) :
  fs st !! csv_file a = Some content ->
  io_error (OpenRead (csv_file a)) (world st) = (None, w1) ->
  io_error (OpenWrite (resolve_output_file a)) w1 = (Some e, w2) ->
  isinstance e FileNotFoundError = true ->
  exit_status a st
  = (1%Z, add_log ERROR (u "File '" ++ csv_file a ++ u "' not found.") (set_world w2 st)).
Proof.
  intros Hc H1 H2 He. unfold exit_status.
  rewrite (main_open_fails a st (set_world w2 st) e).
  - unfold top_log. by rewrite He.
  - unfold open_and_copy_header.
    unfold bind at 1. unfold open_read. rewrite Hc.
    unfold io_check at 1. rewrite H1.
    unfold bind at 1. unfold open_write. unfold bind at 1. unfold io_check at 1.
    cbn [world set_world]. rewrite H2. reflexivity.
Qed.

(** ** The default output path and the header lookup *)

Lemma replace_from_length_le (old new : pystr) (n : nat) :
  old <> [] -> (length old <= length new)%nat ->
  forall s : pystr, (length s <= n)%nat ->
    (length s <= length (replace_from old new O s))%nat.
Proof.
  intros Hne Hlen. induction n as [|n IH]; intros s Hs.
  - destruct s; [done | simpl in Hs; lia].
  - destruct s as [|c s]; [done|].
    destruct (prefix_b old (c :: s)) eqn:E.
    + apply prefix_b_spec in E as [q Hq]. rewrite Hq, replace_from_here by done.
      assert (length (c :: s) = length old + length q)%nat as Hl
        by (by rewrite Hq, length_app).
      assert (length old <> O) by (by destruct old).
      rewrite !length_app.
      assert (length q <= length (replace_from old new O q))%nat
        by (apply IH; simpl in *; lia).
      lia.
    + cbn [replace_from]. rewrite E. simpl. simpl in Hs.
      assert (length s <= length (replace_from old new O s))%nat by (apply IH; lia).
      lia.
Qed.

(** Replacing by something longer lengthens a string in which [old]
    occurs. *)
Lemma replace_from_length_lt (old new s : pystr) :
  old <> [] -> (length old < length new)%nat -> occurs old s ->
  (length s < length (replace_from old new O s))%nat.
Proof.
  intros Hne Hlen. induction s as [|c s IH]; intros Hocc.
  - destruct Hocc as (p & q & E). symmetry in E.
    apply app_eq_nil in E as [_ E]. apply app_eq_nil in E as [-> _]. done.
  - destruct (prefix_b old (c :: s)) eqn:E.
    + apply prefix_b_spec in E as [q Hq]. rewrite Hq, replace_from_here by done.
      rewrite !length_app.
      assert (length q <= length (replace_from old new O q))%nat
        by (eapply replace_from_length_le; [done | lia | done]).
      lia.
    + cbn [replace_from]. rewrite E. simpl.
      assert (occurs old s) as Hs.
      { destruct Hocc as ([|x p] & q & Hq).
        - assert (prefix_b old (c :: s) = true) as Ht
            by (apply prefix_b_spec; by exists q).
          rewrite Ht in E. discriminate.
        - injection Hq as _ ->. by exists p, q. }
      specialize (IH Hs). lia.
Qed.

(** X10. With no output path given, the default output path is the input
    path exactly when [.csv] does not occur in the input path. *)
Theorem default_output_is_input_iff_no_csv (a : Args) :
  output_file a = None ->
  (resolve_output_file a = csv_file a <-> ~ occurs (u ".csv") (csv_file a)).
Proof.
  intros Hout. unfold resolve_output_file. rewrite Hout. split.
  - intros E Hocc.
    pose proof (replace_from_length_lt (u ".csv") (u "_masked.csv") (csv_file a)) as Hlt.
    unfold str_replace in E. cbn [u] in E. cbn [u] in Hlt.
    rewrite E in Hlt. specialize (Hlt ltac:(done) ltac:(simpl; lia) Hocc). lia.
  - intros Hn. by apply replace_from_absent.
Qed.

(** X12. [header.index(column_name)] is the position of the first header
    cell equal to the name: when the header names a column twice, the
    earlier one is the target. *)
Theorem list_index_first_occurrence (x : pystr) (l : list pystr) (i : nat) :
  list_index x l = Some i <->
  l !! i = Some x /\ forall j : nat, (j < i)%nat -> l !! j <> Some x.
Proof.
  revert i. induction l as [|y l IH]; intros i; simpl.
  - split; [done | by intros [? _]].
  - destruct (decide (y = x)) as [->|Hne].
    + split.
      * intros [= <-]. split; [done | intros j Hj; lia].
      * intros [Hi Hmin]. destruct i as [|i]; [done|].
        by destruct (Hmin O ltac:(lia)).
    + destruct (list_index x l) as [k|]; simpl.
      * split.
        -- intros [= <-]. destruct (proj1 (IH k) eq_refl) as [Hk Hmin].
           split; [done|].
           intros [|j] Hj; simpl; [congruence | apply Hmin; lia].
        -- intros [Hi Hmin]. destruct i as [|i]; [simpl in Hi; congruence|].
           assert (Some k = Some i) as [= ->]; [|done].
           apply (proj2 (IH i)). split; [done|].
           intros j Hj. apply (Hmin (S j)). lia.
      * split; [done|]. intros [Hi Hmin].
        destruct i as [|i]; [simpl in Hi; congruence|].
        assert (@None nat = Some i) as Hc; [|discriminate Hc].
        apply (proj2 (IH i)). split; [done|].
        intros j Hj. apply (Hmin (S j)). lia.
Qed.

(** ** More on the detector *)

Lemma first_char_sound (r : regex) (c : N) (w : pystr) :
  matches r (c :: w) -> first_char r c = true.
Proof.
  intros Hm. remember (c :: w) as s eqn:Es. revert w Es.
  induction Hm as [ | p x Hp | r1 r2 w1 w2 Hm1 IH1 Hm2 IH2 | r1 r2 w0 Hm IH
                  | r1 r2 w0 Hm IH | r0 | r0 w1 w2 Hm1 IH1 Hm2 IH2 ];
    intros v Es; simpl; try discriminate.
  - by injection Es as -> _.
  - destruct w1 as [|x w1]; simpl in Es.
    + apply nullable_spec in Hm1 as ->. rewrite (IH2 _ Es). apply orb_true_r.
    + injection Es as -> _. by rewrite (IH1 _ eq_refl).
  - by rewrite (IH _ Es).
  - rewrite (IH _ Es). apply orb_true_r.
  - destruct w1 as [|x w1]; simpl in Es.
    + by apply (IH2 _ Es).
    + injection Es as -> _. by apply (IH1 _ eq_refl).
Qed.

Lemma has_match_first (r : regex) (s : pystr) :
  nullable r = false -> has_match r s ->
  exists c t, s = c :: t /\ first_char r c = true.
Proof.
  intros Hn (w & rest & -> & Hm). destruct w as [|c w].
  - apply nullable_spec in Hm. congruence.
  - exists c, (w ++ rest). split; [done|]. by eapply first_char_sound.
Qed.

Lemma re_match_first (r : regex) (c : N) (t : pystr) :
  nullable r = false -> re_match r (c :: t) = true -> first_char r c = true.
Proof.
  intros Hn Hm. apply re_match_spec in Hm.
  destruct (has_match_first r _ Hn Hm) as (c' & t' & [= <- _] & H). done.
Qed.

Section DetectorMore.
Context {UCD : UnicodeDB}.

Lemma strip_head_nonspace (s t : pystr) (c : N) :
  strip s = c :: t -> isspace c = false.
Proof.
  unfold strip. intros E.
  destruct (lstrip_head s) as [El | (c' & t' & El & Ec)]; rewrite El in E; [done|].
  rewrite (rstrip_cons_nonspace _ _ Ec) in E. by injection E as <- _.
Qed.

Lemma lstrip_suffix (s : pystr) : exists p, s = p ++ lstrip s.
Proof.
  induction s as [|c s [p IH]]; [by exists []|]. simpl.
  destruct (isspace c); [|by exists []].
  exists (c :: p). simpl. by rewrite <- IH.
Qed.

Lemma strip_head_elem (s t : pystr) (c : N) : strip s = c :: t -> c ∈ s.
Proof.
  unfold strip. intros E.
  destruct (lstrip_head s) as [El | (c' & t' & El & Ec)]; rewrite El in E; [done|].
  rewrite (rstrip_cons_nonspace _ _ Ec) in E. injection E as <- _.
  destruct (lstrip_suffix s) as [p Hp]. rewrite Hp, El.
  apply elem_of_app. right. apply elem_of_cons. by left.
Qed.

Lemma lstrip_all_space (s : pystr) : forallb isspace s = true -> lstrip s = [].
Proof.
  induction s as [|c s IH]; [done|]. simpl.
  intros [-> H]%andb_true_iff. by apply IH.
Qed.

Lemma rstrip_no_space (s : pystr) :
  forallb (fun c => negb (isspace c)) s = true -> rstrip s = s.
Proof.
  induction s as [|c s IH]; [done|].
  intros [Hc H]%andb_true_iff. apply negb_true_iff in Hc.
  rewrite (rstrip_cons_nonspace _ _ Hc). by rewrite IH.
Qed.

Lemma nullable_patterns :
  nullable re_ymd = false /\ nullable re_mdy = false /\
  nullable re_currency = false /\ nullable re_telephone = false.
Proof. repeat split. Qed.

Lemma first_char_ymd (c : N) : first_char re_ymd c = isdecimal c.
Proof. cbn -[isdecimal]. by destruct (isdecimal c). Qed.

Lemma first_char_mdy (c : N) : first_char re_mdy c = isdecimal c.
Proof. cbn -[isdecimal]. by destruct (isdecimal c). Qed.

Lemma first_char_currency (c : N) : first_char re_currency c = (ch "$" =? c).
Proof. cbn -[N.eqb]. by destruct (_ =? c). Qed.

Lemma first_char_telephone (c : N) :
  first_char re_telephone c
  = (ch "+" =? c) || isspace c || (ch "(" =? c) || isdecimal c.
Proof.
  cbn -[isdecimal isspace N.eqb].
  by destruct (_ =? c), (isspace c), (_ =? c), (isdecimal c).
Qed.

(** X13. The tag tells how a value begins once trimmed: a ['date'] begins
    with a decimal digit, a ['currency'] with [$], a ['telephone'] with [+],
    [(] or a decimal digit. *)
Theorem detected_tag_first_character (s : pystr) :
  (detect_data_type (PStr s) = tag_date ->
     exists c t, strip s = c :: t /\ isdecimal c = true) /\
  (detect_data_type (PStr s) = tag_currency ->
     exists t, strip s = ch "$" :: t) /\
  (detect_data_type (PStr s) = tag_telephone ->
     exists c t, strip s = c :: t /\
       (c = ch "+" \/ c = ch "(" \/ isdecimal c = true)).
Proof.
  destruct nullable_patterns as (N1 & N2 & N3 & N4).
  unfold detect_data_type.
  destruct (strip s) as [|c t] eqn:Es; [repeat split; discriminate|].
  pose proof (strip_head_nonspace _ _ _ Es) as Hsp.
  destruct (re_match re_ymd (c :: t)) eqn:E1.
  { apply (re_match_first _ _ _ N1) in E1. rewrite first_char_ymd in E1.
    repeat split; try discriminate. intros _. by exists c, t. }
  destruct (re_match re_mdy (c :: t)) eqn:E2.
  { apply (re_match_first _ _ _ N2) in E2. rewrite first_char_mdy in E2.
    repeat split; try discriminate. intros _. by exists c, t. }
  destruct (re_match re_currency (c :: t)) eqn:E3.
  { apply (re_match_first _ _ _ N3) in E3. rewrite first_char_currency in E3.
    apply N.eqb_eq in E3 as <-.
    repeat split; try discriminate. intros _. by exists t. }
  destruct (re_match re_telephone (c :: t)) eqn:E4.
  { apply (re_match_first _ _ _ N4) in E4. rewrite first_char_telephone, Hsp in E4.
    repeat split; try discriminate. intros _. exists c, t. split; [done|].
    rewrite orb_false_r, !orb_true_iff, !N.eqb_eq in E4.
    destruct E4 as [[E|E]|E]; auto. }
  repeat split; discriminate.
Qed.

(** A trimmed value that begins with none of the characters a pattern can
    begin with is ['unknown']. *)
Lemma detect_unknown_by_first (s t : pystr) (c : N) :
  strip s = c :: t ->
  isdecimal c = false -> c <> ch "$" -> c <> ch "+" -> c <> ch "(" ->
  detect_data_type (PStr s) = tag_unknown.
Proof.
  intros Es Hd H1 H2 H3.
  destruct nullable_patterns as (N1 & N2 & N3 & N4).
  pose proof (strip_head_nonspace _ _ _ Es) as Hsp.
  unfold detect_data_type. rewrite Es.
  assert (forall r, nullable r = false -> first_char r c = false ->
                    re_match r (c :: t) = false) as Hno.
  { intros r Hn Hf. destruct (re_match r (c :: t)) eqn:E; [|done].
    apply (re_match_first _ _ _ Hn) in E. congruence. }
  assert ((ch "$" =? c) = false) by (apply N.eqb_neq; congruence).
  assert ((ch "+" =? c) = false) by (apply N.eqb_neq; congruence).
  assert ((ch "(" =? c) = false) by (apply N.eqb_neq; congruence).
  rewrite (Hno re_ymd), (Hno re_mdy), (Hno re_currency), (Hno re_telephone);
    try done.
  - rewrite first_char_telephone, Hsp, Hd. by repeat match goal with H : _ = false |- _ => rewrite H end.
  - by rewrite first_char_currency.
  - by rewrite first_char_mdy.
  - by rewrite first_char_ymd.
Qed.

Lemma ascii_letter_plain (c : N) :
  ascii_letter c = true ->
  isdecimal c = false /\ c <> ch "$" /\ c <> ch "+" /\ c <> ch "(".
Proof.
  unfold ascii_letter, isdecimal. intros H.
  apply orb_true_iff in H as [H|H]; apply andb_true_iff in H as [H1 H2];
    apply N.leb_le in H1, H2.
  - assert ((c <? 128) = true) as -> by (apply N.ltb_lt; lia).
    assert ((c <=? 57) = false) as -> by (apply N.leb_gt; lia).
    rewrite andb_false_r. cbn. repeat split; lia.
  - assert ((c <? 128) = true) as -> by (apply N.ltb_lt; lia).
    assert ((c <=? 57) = false) as -> by (apply N.leb_gt; lia).
    rewrite andb_false_r. cbn. repeat split; lia.
Qed.

(** X14. A string of ASCII letters only is ['unknown']: the values the
    fabricator makes for ['unknown'] cells are ['unknown'] again. *)
Theorem letters_are_unknown (s : pystr) :
  forallb ascii_letter s = true -> detect_data_type (PStr s) = tag_unknown.
Proof.
  intros Hall. destruct (strip s) as [|c t] eqn:Es.
  - simpl. by rewrite Es.
  - pose proof (strip_head_elem _ _ _ Es) as Hin.
    rewrite forallb_forall in Hall.
    apply list_elem_of_In in Hin. apply Hall in Hin.
    destruct (ascii_letter_plain c Hin) as (? & ? & ? & ?).
    by eapply detect_unknown_by_first.
Qed.

(** X15. A string of whitespace only is ['unknown'], like the empty
    string. *)
Theorem whitespace_is_unknown (s : pystr) :
  forallb isspace s = true -> detect_data_type (PStr s) = tag_unknown.
Proof.
  intros Hall. simpl. unfold strip. by rewrite (lstrip_all_space s Hall).
Qed.

End DetectorMore.

Lemma uint_digits (n : Decimal.uint) :
  forallb ascii_digit (u (DecimalString.NilEmpty.string_of_uint n)) = true.
Proof. induction n; simpl; auto. Qed.

(** [str(n)] of a natural number: decimal digits, at least one. *)
Lemma str_of_int_digits (n : Z) :
  (0 <= n)%Z ->
  str_of_int n <> [] /\ forallb ascii_digit (str_of_int n) = true.
Proof.
  intros Hn. unfold str_of_int. destruct n as [|p|p]; [by split | | lia].
  cbn [Z.to_int DecimalString.NilZero.string_of_int].
  unfold DecimalString.NilZero.string_of_uint.
  destruct (Pos.to_uint p) eqn:E; try (split; [discriminate | apply (uint_digits (_ _))]).
  by split.
Qed.

Section FabricatedValues.
Context {UCD : UnicodeDB}.

Lemma ascii_digit_plain (c : N) :
  ascii_digit c = true -> isdecimal c = true /\ isspace c = false.
Proof.
  unfold ascii_digit, isdecimal, isspace. intros H.
  pose proof H as H'. apply andb_true_iff in H' as [H1 H2]. apply N.leb_le in H1, H2.
  assert ((c <? 128) = true) as -> by (apply N.ltb_lt; lia).
  split; [done|].
  assert ((c <=? 13) = false) as -> by (apply N.leb_gt; lia).
  assert ((c <=? 32) = false) as -> by (apply N.leb_gt; lia).
  by rewrite !andb_false_r.
Qed.

Lemma matches_star_digits (ds : pystr) :
  forallb ascii_digit ds = true -> matches (Star digit) ds.
Proof.
  induction ds as [|c ds IH]; [constructor|].
  intros [Hc H]%andb_true_iff.
  change (c :: ds) with ([c] ++ ds). constructor; [|by apply IH].
  constructor. by apply ascii_digit_plain.
Qed.

Lemma matches_currency_digits (ds : pystr) :
  ds <> [] -> forallb ascii_digit ds = true ->
  matches re_currency (ch "$" :: ds).
Proof.
  intros Hne Hall. destruct ds as [|c ds]; [done|].
  apply andb_true_iff in Hall as [Hc Hall].
  replace (ch "$" :: c :: ds) with ([ch "$"] ++ (([c] ++ ds) ++ ([] ++ [])))
    by (simpl; by rewrite app_nil_r).
  unfold re_currency. cbn [Seq].
  constructor; [by constructor|].
  constructor; [|constructor; [constructor | apply m_alt_r; constructor]].
  unfold Plus. constructor; [|by apply matches_star_digits].
  constructor. by apply ascii_digit_plain.
Qed.

(** A [$] amount followed by anything is ['currency']. *)
Lemma dollar_digits_are_currency (ds g : pystr) :
  ds <> [] -> forallb ascii_digit ds = true ->
  detect_data_type (PStr (ch "$" :: ds ++ g)) = tag_currency.
Proof.
  intros Hne Hall.
  assert (strip (ch "$" :: ds) = ch "$" :: ds) as Hs.
  { unfold strip. rewrite lstrip_cons_nonspace by done.
    apply rstrip_no_space. cbn [forallb]. apply andb_true_iff. split; [done|].
    clear Hne. induction ds as [|c ds IH]; [done|].
    apply andb_true_iff in Hall as [Hc Hall]. cbn [forallb].
    destruct (ascii_digit_plain c Hc) as [_ ->]. by apply IH. }
  destruct (strip_app (ch "$" :: ds) g) as [t Ht]; [by rewrite Hs|].
  rewrite Hs in Ht. unfold detect_data_type.
  change (ch "$" :: ds ++ g) with ((ch "$" :: ds) ++ g). rewrite Ht.
  destruct nullable_patterns as (N1 & N2 & _).
  change ((ch "$" :: ds) ++ t) with (ch "$" :: (ds ++ t)).
  destruct (re_match re_ymd (ch "$" :: ds ++ t)) eqn:E1.
  { apply (re_match_first _ _ _ N1) in E1. by rewrite first_char_ymd in E1. }
  destruct (re_match re_mdy (ch "$" :: ds ++ t)) eqn:E2.
  { apply (re_match_first _ _ _ N2) in E2. by rewrite first_char_mdy in E2. }
  assert (re_match re_currency (ch "$" :: ds ++ t) = true) as ->; [|done].
  apply re_match_spec. exists (ch "$" :: ds), t.
  split; [done | by apply matches_currency_digits].
Qed.

(** X16. What the fabricator makes for a ['currency'] cell is ['currency']
    again: [$], then [str(a)] for a natural number [a], then [.] and
    [str(b)], is classified ['currency'] whatever [a] and [b] are. *)
Theorem fabricated_currency_is_currency (a b : Z) :
  (0 <= a)%Z ->
  detect_data_type (PStr (u "$" ++ str_of_int a ++ u "." ++ str_of_int b))
  = tag_currency.
Proof.
  intros Ha. destruct (str_of_int_digits a Ha) as [Hne Hall].
  apply (dollar_digits_are_currency (str_of_int a) (u "." ++ str_of_int b) Hne Hall).
Qed.

End FabricatedValues.

(** ** More on the fabricator *)

(** X17. Once [Faker(locale)] has returned, [permute_data_format] returns a
    value for every value and tag: it neither raises nor exits, and leaves
    the files and the row alone. *)
Theorem permute_returns_once_faker_returned {LIB : Library}
    (data data_type locale : pystr) (st : state) (fake : FakerT) (w : World) :
  Faker locale (world st) = (Ok fake, w) ->
  exists (v : pystr) (st' : state),
    permute_data_format data data_type locale st = (Return v, st') /\
    fs st' = fs st /\ row_obj st' = row_obj st.
Proof. apply permute_faker_returns. Qed.

(** X18. A value tagged ['date'] that dateutil rejects with a [ValueError]
    comes back unchanged, with the warning [Could not parse date: <value>.
    Returning original value.] and nothing else logged. *)
Theorem permute_unparsed_date_returns_original {LIB : Library}
    (data locale : pystr) (st : state) (fake : FakerT) (e : exn) (w1 w2 : World) :
  Faker locale (world st) = (Ok fake, w1) ->
  dateutil_parse data w1 = (Err e, w2) ->
  isinstance e ValueError = true ->
  permute_data_format data tag_date locale st
  = (Return data,
     add_log WARNING (u "Could not parse date: " ++ data
                        ++ u ". Returning original value.")
       (set_world w2 st)).
Proof.
  intros Hf Hp He. rewrite (permute_date_unparsed _ _ _ _ _ _ _ Hf Hp).
  by rewrite He.
Qed.

(** X19. A value tagged ['currency'] whose text, with every [$] and [,]
    removed, [float] rejects comes back unchanged, with the error line
    [Error permuting data: <message>. Returning original value.]; Faker's
    generator is not used. *)
Theorem permute_unparsed_currency_returns_original {LIB : Library}
    (data locale : pystr) (st : state) (fake : FakerT) (e : exn) (w1 : World) :
  Faker locale (world st) = (Ok fake, w1) ->
  py_float (str_replace (str_replace data (u "$") []) (u ",") []) = Err e ->
  permute_data_format data tag_currency locale st
  = (Return data,
     add_log ERROR (u "Error permuting data: " ++ exn_msg e
                      ++ u ". Returning original value.")
       (set_world w1 st)).
Proof.
  intros Hf Hp. unfold permute_data_format.
  unfold bind at 1. unfold call at 1. rewrite Hf.
  unfold try_except. rewrite decide_False by discriminate.
  rewrite decide_True by reflexivity.
  unfold bind at 1. rewrite Hp. reflexivity.
Qed.

Lemma permute_telephone_eq {LIB : Library} (data locale : pystr) (st : state) :
  permute_data_format data tag_telephone locale st =
  match Faker locale (world st) with
  | (Err e, w) => (Raise e, set_world w st)
  | (Ok fake, w1) =>
      match phone_number fake w1 with
      | (Ok s, w2) => (Return s, set_world w2 st)
      | (Err e, w2) =>
          (Return data,
           add_log ERROR (u "Error permuting data: " ++ exn_msg e
                            ++ u ". Returning original value.") (set_world w2 st))
      end
  end.
Proof.
  unfold permute_data_format.
  unfold bind at 1. unfold call at 1.
  destruct (Faker locale (world st)) as [[fake|e] w1]; [|done].
  unfold try_except. rewrite !decide_False by discriminate.
  rewrite decide_True by reflexivity.
  unfold call. cbn [world set_world].
  by destruct (phone_number fake w1) as [[s|e] w2].
Qed.

Lemma permute_unknown_eq {LIB : Library} (data locale : pystr) (st : state) :
  permute_data_format data tag_unknown locale st =
  match Faker locale (world st) with
  | (Err e, w) => (Raise e, set_world w st)
  | (Ok fake, w1) =>
      let st1 := add_log WARNING (u "Unknown data type: " ++ tag_unknown
                                    ++ u ". Returning random string.") st in
      match fake_pystr fake (length data) (length data) w1 with
      | (Ok s, w2) => (Return s, set_world w2 st1)
      | (Err e, w2) =>
          (Return data,
           add_log ERROR (u "Error permuting data: " ++ exn_msg e
                            ++ u ". Returning original value.") (set_world w2 st1))
      end
  end.
Proof.
  unfold permute_data_format.
  unfold bind at 1. unfold call at 1.
  destruct (Faker locale (world st)) as [[fake|e] w1]; [|done].
  unfold try_except. rewrite !decide_False by discriminate.
  unfold bind, log, call. cbn [world set_world add_log].
  by destruct (fake_pystr fake (length data) (length data) w1) as [[s|e] w2].
Qed.

(** X20. For the tag ['telephone'] the original value plays no part: a
    result that is not the original itself is the result for every other
    original, in the same state. *)
Theorem permute_telephone_ignores_original {LIB : Library}
    (d1 d2 locale : pystr) (st st' : state) (v : pystr) :
  permute_data_format d1 tag_telephone locale st = (Return v, st') ->
  v <> d1 ->
  permute_data_format d2 tag_telephone locale st = (Return v, st').
Proof.
  rewrite !permute_telephone_eq.
  destruct (Faker locale (world st)) as [[fake|e] w1]; [|discriminate].
  destruct (phone_number fake w1) as [[s|e] w2]; [done|].
  intros [= <- <-] Hne. done.
Qed.

(** X21. For the tag ['unknown'] the original value plays a part through
    its length only: a result that is not the original itself is the result
    for every other original of the same length, in the same state. *)
Theorem permute_unknown_uses_length_only {LIB : Library}
    (d1 d2 locale : pystr) (st st' : state) (v : pystr) :
  length d1 = length d2 ->
  permute_data_format d1 tag_unknown locale st = (Return v, st') ->
  v <> d1 ->
  permute_data_format d2 tag_unknown locale st = (Return v, st').
Proof.
  intros Hlen. rewrite !permute_unknown_eq. rewrite <- Hlen.
  destruct (Faker locale (world st)) as [[fake|e] w1]; [|discriminate].
  cbn zeta.
  destruct (fake_pystr fake (length d1) (length d1) w1) as [[s|e] w2]; [done|].
  intros [= <- <-] Hne. done.
Qed.

(** ** Text after a value does not change its tag *)

Lemma has_match_sym_cat (p : N -> bool) (r : regex) (s : pystr) :
  has_match (Cat (Sym p) r) s ->
  exists c t, s = c :: t /\ p c = true /\ has_match r t.
Proof.
  intros (w & rest & -> & Hm).
  inversion Hm as [| | ? ? w1 w2 H1 H2 | | | |]; subst.
  inversion H1; subst.
  eexists _, (w2 ++ rest). split; [reflexivity|]. split; [done|].
  by exists w2, rest.
Qed.

Lemma has_match_opt_cat (a r : regex) (s : pystr) :
  has_match (Cat (Opt a) r) s -> has_match (Cat a r) s \/ has_match r s.
Proof.
  intros (w & rest & -> & Hm).
  inversion Hm as [| | ? ? w1 w2 H1 H2 | | | |]; subst.
  inversion H1 as [| | | ? ? ? Ha | ? ? ? He | |]; subst.
  - left. exists (w1 ++ w2), rest. split; [done | by constructor].
  - inversion He; subst. right. by exists w2, rest.
Qed.

Lemma has_match_cat_assoc (a b r : regex) (s : pystr) :
  has_match (Cat (Cat a b) r) s -> has_match (Cat a (Cat b r)) s.
Proof.
  intros (w & rest & -> & Hm).
  inversion Hm as [| | ? ? w1 w2 H1 H2 | | | |]; subst.
  inversion H1 as [| | ? ? w3 w4 H3 H4 | | | |]; subst.
  exists (w3 ++ w4 ++ w2), rest. split; [by rewrite !app_assoc|].
  constructor; [done | by constructor].
Qed.

Lemma has_match_eps_cat (r : regex) (s : pystr) :
  has_match (Cat Eps r) s -> has_match r s.
Proof.
  intros (w & rest & -> & Hm).
  inversion Hm as [| | ? ? w1 w2 H1 H2 | | | |]; subst.
  inversion H1; subst. by exists w2, rest.
Qed.

(** The head of a match of [p], [p], ... followed by [r]. *)
Lemma has_match_rep_cat (p : N -> bool) (n : nat) (r : regex) (s : pystr) :
  has_match (Cat (Rep (S n) (Sym p)) r) s ->
  exists c t, s = c :: t /\ p c = true /\ has_match (Cat (Rep n (Sym p)) r) t.
Proof.
  intros H. cbn [Rep] in H. apply has_match_cat_assoc in H.
  by apply has_match_sym_cat in H.
Qed.

Lemma has_match_rep1 (p : N -> bool) (n : nat) (s : pystr) :
  has_match (Rep (S n) (Sym p)) s -> exists c t, s = c :: t /\ p c = true.
Proof.
  intros H. cbn [Rep] in H.
  apply has_match_sym_cat in H as (c & t & -> & Hp & _). eauto.
Qed.

Section TagStability.
Context {UCD : UnicodeDB}.

Lemma ymd_shape (s : pystr) :
  has_match re_ymd s ->
  exists c0 c1 c2 c3 t,
    s = c0 :: c1 :: c2 :: c3 :: ch "-" :: t /\ isdecimal c3 = true.
Proof.
  unfold re_ymd. cbn [Seq]. unfold digit. intros H.
  apply has_match_rep_cat in H as (c0 & t0 & -> & _ & H).
  apply has_match_rep_cat in H as (c1 & t1 & -> & _ & H).
  apply has_match_rep_cat in H as (c2 & t2 & -> & _ & H).
  apply has_match_rep_cat in H as (c3 & t3 & -> & H3 & H).
  apply has_match_eps_cat in H.
  apply has_match_sym_cat in H as (c4 & t4 & -> & H4 & _).
  apply N.eqb_eq in H4 as <-. by exists c0, c1, c2, c3, t4.
Qed.

Lemma mdy_shape (s : pystr) :
  has_match re_mdy s -> exists c0 c1 t, s = c0 :: c1 :: ch "/" :: t.
Proof.
  unfold re_mdy. cbn [Seq]. unfold digit. intros H.
  apply has_match_rep_cat in H as (c0 & t0 & -> & _ & H).
  apply has_match_rep_cat in H as (c1 & t1 & -> & _ & H).
  apply has_match_eps_cat in H.
  apply has_match_sym_cat in H as (c2 & t2 & -> & H2 & _).
  apply N.eqb_eq in H2 as <-. by exists c0, c1, t2.
Qed.

Lemma telephone_rest_shape (s : pystr) :
  has_match telephone_rest s ->
  exists c3 c4 t, s = c3 :: c4 :: t /\ (isdecimal c3 = true -> isdecimal c4 = true).
Proof.
  unfold telephone_rest. cbn [Seq]. unfold digit. intros H.
  assert (forall s', has_match (Cat (Rep 3 (Sym isdecimal))
                                  (Cat (Opt sep) (Rep 4 (Sym isdecimal)))) s' ->
                     exists e0 e1 t, s' = e0 :: e1 :: t /\
                       isdecimal e0 = true /\ isdecimal e1 = true) as Hd.
  { intros s' H'.
    apply has_match_rep_cat in H' as (e0 & t0 & -> & H0 & H').
    apply has_match_rep_cat in H' as (e1 & t1 & -> & H1 & _).
    by exists e0, e1, t1. }
  assert (forall s', has_match (Cat (Opt sep)
                                  (Cat (Rep 3 (Sym isdecimal))
                                     (Cat (Opt sep) (Rep 4 (Sym isdecimal))))) s' ->
                     exists c3 c4 t, s' = c3 :: c4 :: t /\
                       isdecimal c4 = true) as Hs.
  { intros s' H'. apply has_match_opt_cat in H' as [H'|H'].
    - apply has_match_sym_cat in H' as (c3 & t & -> & _ & H').
      apply Hd in H' as (e0 & e1 & t' & -> & H0 & _). by exists c3, e0, (e1 :: t').
    - apply Hd in H' as (e0 & e1 & t' & -> & _ & H1). by exists e0, e1, t'. }
  apply has_match_opt_cat in H as [H|H].
  - apply has_match_sym_cat in H as (c3 & t & -> & Hc & H).
    apply N.eqb_eq in Hc as <-.
    apply Hs in H as (c4 & c5 & t' & -> & _).
    exists (ch ")"), c4, (c5 :: t'). split; [done|].
    unfold isdecimal. cbn. discriminate.
  - apply Hs in H as (c3 & c4 & t' & -> & H4). by exists c3, c4, t'.
Qed.

Lemma telephone_shape (s : pystr) (c : N) (t : pystr) :
  has_match re_telephone s -> s = c :: t ->
  isdecimal c = true -> isspace c = false ->
  exists c1 c2 c3 c4 t',
    s = c :: c1 :: c2 :: c3 :: c4 :: t' /\ isdecimal c2 = true /\
    (isdecimal c3 = true -> isdecimal c4 = true).
Proof.
  intros H -> Hd Hsp.
  change re_telephone with
    (Cat (Opt (Cat (Lit (ch "+")) (Between 1 3 digit)))
       (Cat (Opt space) (Cat (Opt (Lit (ch "("))) (Cat (Rep 3 digit) telephone_rest)))) in H.
  apply has_match_opt_cat in H as [H|H].
  { apply has_match_cat_assoc, has_match_sym_cat in H as (c' & t' & [= <- _] & Hc & _).
    apply N.eqb_eq in Hc as <-. unfold isdecimal in Hd. cbn in Hd. discriminate. }
  apply has_match_opt_cat in H as [H|H].
  { apply has_match_sym_cat in H as (c' & t' & [= <- _] & Hc & _). congruence. }
  apply has_match_opt_cat in H as [H|H].
  { apply has_match_sym_cat in H as (c' & t' & [= <- _] & Hc & _).
    apply N.eqb_eq in Hc as <-. unfold isdecimal in Hd. cbn in Hd. discriminate. }
  unfold digit in H.
  apply has_match_rep_cat in H as (c0 & t0 & [= <- <-] & _ & H).
  apply has_match_rep_cat in H as (c1 & t1 & -> & _ & H).
  apply has_match_rep_cat in H as (c2 & t2 & -> & H2 & H).
  apply has_match_eps_cat in H.
  apply telephone_rest_shape in H as (c3 & c4 & t' & -> & H34).
  by exists c1, c2, c3, c4, t'.
Qed.

(** X22. Text put after a value never changes a tag other than
    ['unknown']: what is ['date'], ['currency'] or ['telephone'] stays so
    whatever follows it. *)
Theorem detect_data_type_stable_under_suffix (s g : pystr) :
  detect_data_type (PStr s) <> tag_unknown ->
  detect_data_type (PStr (s ++ g)) = detect_data_type (PStr s).
Proof.
  intros Hk.
  assert (strip s <> []) as Hne.
  { intros E. apply Hk. simpl. by rewrite E. }
  destruct (strip_app s g Hne) as [x Hx].
  destruct (strip s) as [|c t] eqn:Es; [done|].
  pose proof (strip_head_nonspace _ _ _ Es) as Hsp.
  destruct nullable_patterns as (N1 & N2 & N3 & N4).
  unfold detect_data_type in *. rewrite Hx, Es in *.
  change ((c :: t) ++ x) with (c :: (t ++ x)).
  destruct (re_match re_ymd (c :: t)) eqn:E1.
  { apply (re_match_app _ _ x) in E1. cbn [app] in E1. by rewrite E1. }
  destruct (re_match re_mdy (c :: t)) eqn:E2.
  { apply (re_match_app _ _ x) in E2. cbn [app] in E2. rewrite E2.
    by destruct (re_match re_ymd (c :: t ++ x)). }
  destruct (re_match re_currency (c :: t)) eqn:E3.
  { pose proof (re_match_first _ _ _ N3 E3) as Hf.
    rewrite first_char_currency in Hf. apply N.eqb_eq in Hf as <-.
    apply (re_match_app _ _ x) in E3. cbn [app] in E3. rewrite E3.
    destruct (re_match re_ymd (ch "$" :: t ++ x)) eqn:F1.
    { apply (re_match_first _ _ _ N1) in F1. by rewrite first_char_ymd in F1. }
    destruct (re_match re_mdy (ch "$" :: t ++ x)) eqn:F2.
    { apply (re_match_first _ _ _ N2) in F2. by rewrite first_char_mdy in F2. }
    done. }
  destruct (re_match re_telephone (c :: t)) eqn:E4; [|done].
  pose proof (re_match_first _ _ _ N4 E4) as Hf.
  rewrite first_char_telephone, Hsp, orb_false_r in Hf.
  assert (re_match re_currency (c :: t ++ x) = false) as ->.
  { match goal with |- ?b = false => destruct b eqn:F; [|done] end.
    apply (re_match_first _ _ _ N3) in F. rewrite first_char_currency in F.
    apply N.eqb_eq in F as <-. cbn in Hf. discriminate. }
  pose proof (re_match_app _ _ x E4) as E4'. cbn [app] in E4'. rewrite E4'.
  destruct (isdecimal c) eqn:Hd.
  - apply re_match_spec in E4.
    destruct (telephone_shape _ c t E4 eq_refl Hd Hsp)
      as (c1 & c2 & c3 & c4 & t' & [= ->] & H2 & H34).
    assert (re_match re_ymd (c :: (c1 :: c2 :: c3 :: c4 :: t') ++ x) = false) as ->.
    { match goal with |- ?b = false => destruct b eqn:F; [|done] end.
      apply re_match_spec, ymd_shape in F as (d0 & d1 & d2 & d3 & t4 & Heq & H3).
      cbn [app] in Heq. injection Heq as _ _ _ <- E _.
      specialize (H34 H3). rewrite E in H34.
      unfold isdecimal in H34. cbn in H34. discriminate. }
    assert (re_match re_mdy (c :: (c1 :: c2 :: c3 :: c4 :: t') ++ x) = false) as ->.
    { match goal with |- ?b = false => destruct b eqn:F; [|done] end.
      apply re_match_spec, mdy_shape in F as (d0 & d1 & t4 & Heq).
      cbn [app] in Heq. injection Heq as _ _ E _.
      rewrite E in H2. unfold isdecimal in H2. cbn in H2. discriminate. }
    done.
  - assert (re_match re_ymd (c :: t ++ x) = false) as ->.
    { match goal with |- ?b = false => destruct b eqn:F; [|done] end.
      apply (re_match_first _ _ _ N1) in F. rewrite first_char_ymd in F. congruence. }
    assert (re_match re_mdy (c :: t ++ x) = false) as ->.
    { match goal with |- ?b = false => destruct b eqn:F; [|done] end.
      apply (re_match_first _ _ _ N2) in F. rewrite first_char_mdy in F. congruence. }
    done.
Qed.

End TagStability.

(** ** The further properties on concrete runs *)



Lemma missing_input_file_exits_witness :
  exit_status (UCD := Double.ascii_only) (LIB := Double.lib)
    (mkArgs (u "absent.csv") (u "phone") None (u "en_US")) (Double.sample_state [])
  = (1%Z, add_log (LIB := Double.lib) ERROR (u "File 'absent.csv' not found.")
            (Double.sample_state [])).
Proof.
  apply (missing_input_file_exits (UCD := Double.ascii_only) (LIB := Double.lib)
           (mkArgs (u "absent.csv") (u "phone") None (u "en_US")) (Double.sample_state [])
           None (O, [])).
  - vm_compute. reflexivity.
  - reflexivity.
  - reflexivity.
Defined.

Lemma empty_input_file_exits_witness :
  let st := mkState (LIB := Double.lib) (O, []) {[ u "in.csv" := [] ]} [] [] in
  (exit_status (UCD := Double.ascii_only) (LIB := Double.lib)
     (Double.sample_args (u "en_US")) st).1 = 1%Z.
Proof.
  intros st.
  rewrite (empty_input_file_exits (UCD := Double.ascii_only) (LIB := Double.lib)
             (Double.sample_args (u "en_US")) st (O, []) (O, []));
    [reflexivity | vm_compute; reflexivity | reflexivity | reflexivity].
Defined.


Lemma short_row_passes_through_witness :
  process_rows (UCD := Double.ascii_only) (LIB := Double.lib)
    (u "out.csv") 1 (u "en_US") [[u "3"]] (Double.sample_state [])
  = (Return tt,
     mkState (LIB := Double.lib) (O, [])
       (<[u "out.csv" := [[u "3"]]]> (fs (Double.sample_state [])))
       [(WARNING, u "Row has fewer columns than expected. Skipping row.")]
       [u "3"]).
Proof.
  eapply eq_trans.
  - apply (short_row_passes_through (UCD := Double.ascii_only) (LIB := Double.lib)
             (u "out.csv") 1 (u "en_US") [u "3"] [] (Double.sample_state []) (O, []));
      [simpl; lia | reflexivity].
  - reflexivity.
Defined.


Lemma output_not_found_blamed_on_input_witness :
  exit_status (UCD := Double.ascii_only) (LIB := NoDirectory.lib)
    NoDirectory.args0 NoDirectory.state0
  = (1%Z, add_log (LIB := NoDirectory.lib) ERROR (u "File 'in.csv' not found.")
            NoDirectory.state0).
Proof.
  apply (output_not_found_blamed_on_input (UCD := Double.ascii_only) (LIB := NoDirectory.lib)
           NoDirectory.args0 NoDirectory.state0 Double.sample_rows (O, []) (O, [])
           (mkExn FileNotFoundError (u "No such file or directory: missing/out.csv")));
    vm_compute; reflexivity.
Defined.

Lemma default_output_is_input_iff_no_csv_witness :
  resolve_output_file (mkArgs (u "data") (u "phone") None (u "en_US")) = u "data".
Proof.
  apply (default_output_is_input_iff_no_csv
           (mkArgs (u "data") (u "phone") None (u "en_US")) eq_refl).
  exact data_has_no_csv.
Defined.

Lemma list_index_first_occurrence_witness :
  [u "phone"; u "id"; u "phone"] !! O = Some (u "phone") /\
  forall j : nat, (j < 0)%nat -> [u "phone"; u "id"; u "phone"] !! j <> Some (u "phone").
Proof.
  apply (list_index_first_occurrence (u "phone") [u "phone"; u "id"; u "phone"] O).
  reflexivity.
Defined.

Lemma detected_tag_first_character_witness :
  exists t, strip (UCD := Double.ascii_only) (u " $12 ") = ch "$" :: t.
Proof.
  apply (detected_tag_first_character (UCD := Double.ascii_only) (u " $12 ")).
  vm_compute. reflexivity.
Defined.

Lemma letters_are_unknown_witness :
  detect_data_type (UCD := Double.ascii_only) (PStr (u "xxx")) = tag_unknown.
Proof.
  apply (letters_are_unknown (UCD := Double.ascii_only) (u "xxx")). reflexivity.
Defined.

Lemma whitespace_is_unknown_witness :
  detect_data_type (UCD := Double.ascii_only) (PStr (u "   ")) = tag_unknown.
Proof.
  apply (whitespace_is_unknown (UCD := Double.ascii_only) (u "   ")). reflexivity.
Defined.

Lemma fabricated_currency_is_currency_witness :
  detect_data_type (UCD := Double.ascii_only) (PStr (u "$7.8")) = tag_currency.
Proof.
  apply (fabricated_currency_is_currency (UCD := Double.ascii_only) 7 8). lia.
Defined.

Lemma permute_returns_once_faker_returned_witness :
  exists (v : pystr) (st' : state (LIB := Double.lib)),
    permute_data_format (LIB := Double.lib) (u "n/a") (u "no such tag") (u "en_US")
      (Double.sample_state []) = (Return v, st') /\
    fs st' = fs (Double.sample_state []) /\ row_obj st' = row_obj (Double.sample_state []).
Proof.
  apply (permute_returns_once_faker_returned (LIB := Double.lib)
           (u "n/a") (u "no such tag") (u "en_US") (Double.sample_state [])
           (u "en_US") (O, [])).
  reflexivity.
Defined.

Lemma permute_unparsed_date_returns_original_witness :
  permute_data_format (LIB := Double.lib) (u "tomorrow") tag_date (u "en_US")
    (Double.sample_state [])
  = (Return (u "tomorrow"),
     add_log (LIB := Double.lib) WARNING
       (u "Could not parse date: tomorrow. Returning original value.")
       (Double.sample_state [])).
Proof.
  apply (permute_unparsed_date_returns_original (LIB := Double.lib)
           (u "tomorrow") (u "en_US") (Double.sample_state []) (u "en_US")
           (mkExn ParserError (u "Unknown string format: tomorrow")) (O, []) (O, []));
    reflexivity.
Defined.

Lemma permute_unparsed_currency_returns_original_witness :
  permute_data_format (LIB := Double.lib) (u "$12 USD") tag_currency (u "en_US")
    (Double.sample_state [])
  = (Return (u "$12 USD"),
     add_log (LIB := Double.lib) ERROR
       (u "Error permuting data: could not convert string to float: 12 USD. Returning original value.")
       (Double.sample_state [])).
Proof.
  apply (permute_unparsed_currency_returns_original (LIB := Double.lib)
           (u "$12 USD") (u "en_US") (Double.sample_state []) (u "en_US")
           (mkExn ValueError (u "could not convert string to float: 12 USD")) (O, []));
    reflexivity.
Defined.

Lemma permute_telephone_ignores_original_witness :
  permute_data_format (LIB := Double.lib) (u "555-000-1111") tag_telephone (u "en_US")
    (Double.sample_state [])
  = (Return (u "(555) 010-0199"), Double.sample_state []).
Proof.
  apply (permute_telephone_ignores_original (LIB := Double.lib)
           (u "555-123-4567") (u "555-000-1111") (u "en_US")
           (Double.sample_state []) (Double.sample_state []) (u "(555) 010-0199")).
  - reflexivity.
  - discriminate.
Defined.

Lemma permute_unknown_uses_length_only_witness :
  (permute_data_format (LIB := Double.lib) (u "abc") tag_unknown (u "en_US")
     (Double.sample_state [])).1 = Return (u "xxx").
Proof.
  rewrite (permute_unknown_uses_length_only (LIB := Double.lib)
             (u "n/a") (u "abc") (u "en_US") (Double.sample_state [])
             (permute_data_format (LIB := Double.lib) (u "n/a") tag_unknown (u "en_US")
                (Double.sample_state [])).2
             (u "xxx") eq_refl eq_refl);
    [reflexivity | discriminate].
Defined.

Lemma detect_data_type_stable_under_suffix_witness :
  detect_data_type (UCD := Double.ascii_only) (PStr (u "555-123-4567" ++ u "-89 ext. 3"))
  = detect_data_type (UCD := Double.ascii_only) (PStr (u "555-123-4567")).
Proof.
  apply (detect_data_type_stable_under_suffix (UCD := Double.ascii_only)
           (u "555-123-4567") (u "-89 ext. 3")).
  vm_compute. discriminate.
Defined.
